(** * sveltekit-ws: the connection manager (src/manager.ts)

    A shallow embedding of [WebSocketManager] and the proofs of its
    registry, unicast and broadcast properties.

    The manager is a class around one private [Map<string, WSConnection>].
    Its methods call into the host: the [ws] socket objects ([readyState],
    [send], [close]), [Date.now], [crypto.randomUUID], [JSON.stringify] and
    [console.error].  The host is an interface here ([Runtime]); the
    manager's methods are written in a small monad that threads the
    registry, the host's state and the record of the calls made on the
    sockets, and in which a JavaScript exception is a completion of its
    own, so that [try]/[catch] is modelled and not assumed. *)

From Stdlib Require Import String Ascii ZArith List Bool Lia DecimalString.
Import ListNotations.
Local Open Scope string_scope.
Local Open Scope Z_scope.

(** ** JavaScript's [Map] with string keys

    A [Map] iterates in insertion order, [set] on a key that is present
    replaces the value where it stands, and [delete] reports whether the key
    was there.  An association list in insertion order keeps all of that. *)
Module JSMap.

Definition t (V : Type) : Type := list (string * V).

Definition empty {V : Type} : t V := [].

Fixpoint get {V : Type} (k : string) (m : t V) : option V :=
  match m with
  | [] => None
  | (k', v) :: rest => if String.eqb k k' then Some v else get k rest
  end.

Definition has {V : Type} (k : string) (m : t V) : bool :=
  match get k m with
  | Some _ => true
  | None => false
  end.

Fixpoint set {V : Type} (k : string) (v : V) (m : t V) : t V :=
  match m with
  | [] => [(k, v)]
  | (k', v') :: rest =>
      if String.eqb k k' then (k, v) :: rest else (k', v') :: set k v rest
  end.

(** [delete] gives the boolean that [Map.prototype.delete] returns and the
    map without the key. *)
Definition delete {V : Type} (k : string) (m : t V) : bool * t V :=
  (has k m, filter (fun kv => negb (String.eqb k (fst kv))) m).

Definition size {V : Type} (m : t V) : nat := length m.

Definition keys {V : Type} (m : t V) : list string := map fst m.

Definition values {V : Type} (m : t V) : list V := map snd m.

(** The representation invariant of a [Map]: a key occurs once. *)
Definition wf {V : Type} (m : t V) : Prop := NoDup (keys m).

End JSMap.

(** ** Completions: a call returns or throws *)

Definition Error := string.

Inductive Completion (A : Type) : Type :=
| Normal (a : A)
| Throw (e : Error).

Arguments Normal {A} a.
Arguments Throw {A} e.

(** ** The data of src/types.ts *)

(** A [ws] socket is an object of the host; the manager holds references. *)
Definition WebSocket := nat.
Bind Scope nat_scope with WebSocket.

(** [interface WSMessage<T> { type: string; data: T; timestamp?: number }] *)
Record WSMessage (Data : Type) : Type := mkMessage {
  type : string;
  data : Data;
  timestamp : option Z
}.

Arguments mkMessage {Data} _ _ _.
Arguments type {Data} _.
Arguments data {Data} _.
Arguments timestamp {Data} _.

(** [interface WSConnection { ws: WebSocket; id: string; metadata?: Record<string, any> }] *)
Record WSConnection (Meta : Type) : Type := mkConnection {
  ws : WebSocket;
  id : string;
  metadata : option Meta
}.

Arguments mkConnection {Meta} _ _ _.
Arguments ws {Meta} _.
Arguments id {Meta} _.
Arguments metadata {Meta} _.

(** ** The host

    [readyState] reads the property of a socket; [ws_send] and [ws_close]
    are the socket's methods, which may throw and may change the host's
    state; [Date_now] reads the host's clock, which the host's other calls
    may advance; [randomUUID] draws from the random source;
    [JSON_stringify] renders the object literal that [send] and [broadcast]
    build; [data] is typed [any], and [JSON.stringify] throws a TypeError on
    a value it cannot render (a BigInt, an object that refers to itself), so
    the rendering is a completion. *)
Class Runtime (World Data : Type) : Type := {
  readyState : WebSocket -> World -> Z;
  ws_send : WebSocket -> string -> World -> Completion unit * World;
  ws_close : WebSocket -> World -> Completion unit * World;
  Date_now : World -> Z;
  randomUUID : World -> string * World;
  JSON_stringify : WSMessage Data -> Completion string
}.

(** A call the manager made on a socket. *)
Inductive Call : Type :=
| CallSend (w : WebSocket) (payload : string)
| CallClose (w : WebSocket).

(** The manager's private field, the host, and what an observer of the
    sockets and of the console has seen so far. *)
Record Sys (World Meta : Type) : Type := mkSys {
  connections : JSMap.t (WSConnection Meta);
  world : World;
  calls : list Call;
  console : list (string * Error)
}.

Arguments mkSys {World Meta} _ _ _ _.
Arguments connections {World Meta} _.
Arguments world {World Meta} _.
Arguments calls {World Meta} _.
Arguments console {World Meta} _.

Declare Scope js_scope.
Delimit Scope js_scope with js.

Section Manager.

Context {World Data Meta : Type} {RT : Runtime World Data}.

Local Abbreviation State := (Sys World Meta).
Local Abbreviation Connection := (WSConnection Meta).
Local Abbreviation Message := (WSMessage Data).

(** *** The monad: state that survives a throw *)

Definition JS (A : Type) : Type := State -> Completion A * State.

Definition ret {A : Type} (a : A) : JS A := fun s => (Normal a, s).

Definition bind {A B : Type} (m : JS A) (k : A -> JS B) : JS B :=
  fun s =>
    match m s with
    | (Normal a, s') => k a s'
    | (Throw e, s') => (Throw e, s')
    end.

(** [try { body } catch (error) { handler }] *)
Definition try_catch {A : Type} (body : JS A) (handler : Error -> JS A) : JS A :=
  fun s =>
    match body s with
    | (Normal a, s') => (Normal a, s')
    | (Throw e, s') => handler e s'
    end.

Local Notation "x <- m ;; k" := (bind m (fun x => k))
  (at level 100, m at next level, right associativity) : js_scope.
Local Notation "m ;;; k" := (bind m (fun _ => k))
  (at level 100, right associativity) : js_scope.
Local Open Scope js_scope.

(** *** Primitive actions *)

Definition this_connections : JS (JSMap.t Connection) :=
  fun s => (Normal (connections s), s).

Definition set_connections (m : JSMap.t Connection) : JS unit :=
  fun s => (Normal tt, mkSys m (world s) (calls s) (console s)).

Definition get_readyState (w : WebSocket) : JS Z :=
  fun s => (Normal (readyState w (world s)), s).

(** [w.send(payload)]: the call is recorded, then the host decides. *)
Definition call_send (w : WebSocket) (payload : string) : JS unit :=
  fun s =>
    let (r, wd) := ws_send w payload (world s) in
    (r, mkSys (connections s) wd (calls s ++ [CallSend w payload]) (console s)).

(** [w.close()] *)
Definition call_close (w : WebSocket) : JS unit :=
  fun s =>
    let (r, wd) := ws_close w (world s) in
    (r, mkSys (connections s) wd (calls s ++ [CallClose w]) (console s)).

Definition call_Date_now : JS Z :=
  fun s => (Normal (Date_now (world s)), s).

Definition call_randomUUID : JS string :=
  fun s =>
    let (u, wd) := randomUUID (world s) in
    (Normal u, mkSys (connections s) wd (calls s) (console s)).

(** [JSON.stringify(frame)]: returns the text or throws; the host's state is
    not involved. *)
Definition call_JSON_stringify (frame : Message) : JS string :=
  fun s => (JSON_stringify frame, s).

Definition console_error (msg : string) (error : Error) : JS unit :=
  fun s =>
    (Normal tt,
     mkSys (connections s) (world s) (calls s) (console s ++ [(msg, error)])).

(** [Map.prototype.forEach]: the callback gets the value and the key, in
    insertion order; a throw of the callback ends the iteration. *)
Fixpoint forEach {V : Type} (m : JSMap.t V) (f : V -> string -> JS unit) : JS unit :=
  match m with
  | [] => ret tt
  | (k, v) :: rest => f v k ;;; forEach rest f
  end.

(** [exclude.includes(id)] *)
Definition includes (l : list string) (x : string) : bool :=
  existsb (String.eqb x) l.

(** [message.timestamp || Date.now()]: [undefined] and [0] are falsy, so
    [Date.now()] is evaluated for both.  A timestamp is the integer of the
    data model (epoch milliseconds); what [||] does to a number that is not
    an integer (NaN is falsy too) is outside this embedding. *)
Definition timestamp_or_now (t : option Z) : JS Z :=
  match t with
  | Some n => if n =? 0 then call_Date_now else ret n
  | None => call_Date_now
  end.

(** [{ ...message, timestamp: t }] *)
Definition with_timestamp (message : Message) (t : Z) : Message :=
  mkMessage (type message) (data message) (Some t).

(** *** The methods of [WebSocketManager] *)

Definition addConnection (w : WebSocket) (md : option Meta) : JS Connection :=
  i <- call_randomUUID ;;
  let connection := mkConnection w i md in
  m <- this_connections ;;
  set_connections (JSMap.set i connection m) ;;;
  ret connection.

(** [new Map(this.connections)]: the copy has the entries of the registry;
    maps are values here, so the copy is the map. *)
Definition getConnections : JS (JSMap.t Connection) :=
  this_connections.

Definition getConnection (i : string) : JS (option Connection) :=
  m <- this_connections ;;
  ret (JSMap.get i m).

Definition send (i : string) (message : Message) : JS bool :=
  m <- this_connections ;;
  match JSMap.get i m with
  | None => ret false
  | Some connection =>
      rs <- get_readyState (ws connection) ;;
      if negb (rs =? 1) then ret false
      else
        try_catch
          (t <- timestamp_or_now (timestamp message) ;;
           payload <- call_JSON_stringify (with_timestamp message t) ;;
           call_send (ws connection) payload ;;;
           ret true)
          (fun error =>
             console_error ("Failed to send message to " ++ i ++ ":") error ;;;
             ret false)
  end.

(** The callback of the [forEach] in [broadcast]. *)
Definition broadcast_to (payload : string) (exclude : list string)
    (connection : Connection) (i : string) : JS unit :=
  if includes exclude i then ret tt
  else
    rs <- get_readyState (ws connection) ;;
    if rs =? 1 then
      try_catch
        (call_send (ws connection) payload)
        (fun error => console_error ("Failed to broadcast to " ++ i ++ ":") error)
    else ret tt.

Definition broadcast (message : Message) (exclude : list string) : JS unit :=
  t <- timestamp_or_now (timestamp message) ;;
  payload <- call_JSON_stringify (with_timestamp message t) ;;
  m <- this_connections ;;
  forEach m (broadcast_to payload exclude).

Definition connections_delete (i : string) : JS bool :=
  m <- this_connections ;;
  let (found, m') := JSMap.delete i m in
  set_connections m' ;;;
  ret found.

Definition removeConnection (i : string) : JS bool :=
  connections_delete i.

Definition disconnect (i : string) : JS bool :=
  m <- this_connections ;;
  match JSMap.get i m with
  | None => ret false
  | Some connection =>
      try_catch
        (call_close (ws connection) ;;;
         connections_delete i ;;;
         ret true)
        (fun error =>
           console_error ("Failed to disconnect " ++ i ++ ":") error ;;;
           ret false)
  end.

Definition size : JS nat :=
  m <- this_connections ;;
  ret (JSMap.size m).

Definition clear : JS unit :=
  m <- this_connections ;;
  forEach m (fun connection _ =>
               try_catch (call_close (ws connection)) (fun _ => ret tt)) ;;;
  set_connections JSMap.empty.

(** *** Sequences of registry operations

    A client of the registry issues [addConnection], [removeConnection] and
    [disconnect] calls.  [run] executes such a sequence and tallies what the
    calls returned: the ids of the records that [addConnection] returned, and
    how many removals returned [true]. *)

Inductive Op : Type :=
| OpAdd (w : WebSocket) (md : option Meta)
| OpRemove (i : string)
| OpDisconnect (i : string).

Record Tally : Type := mkTally {
  added : list string;
  removed : nat
}.

Definition tally_removal (b : bool) : Tally :=
  mkTally [] (if b then 1%nat else 0%nat).

Definition tally_app (a b : Tally) : Tally :=
  mkTally (added a ++ added b) (removed a + removed b)%nat.

Definition step (op : Op) : JS Tally :=
  match op with
  | OpAdd w md => c <- addConnection w md ;; ret (mkTally [id c] 0%nat)
  | OpRemove i => b <- removeConnection i ;; ret (tally_removal b)
  | OpDisconnect i => b <- disconnect i ;; ret (tally_removal b)
  end.

Fixpoint run (ops : list Op) : JS Tally :=
  match ops with
  | [] => ret (mkTally [] 0%nat)
  | op :: rest =>
      a <- step op ;;
      b <- run rest ;;
      ret (tally_app a b)
  end.

(** *** The broadcast of the specification's data model

    This definition follows the words of the specification, not the source:
    "This stamping happens independently for every recipient in a broadcast",
    so the frame is built inside the iteration, once per recipient.  It is
    compared with [broadcast] below. *)
Definition broadcast_stamping_each_recipient
    (message : Message) (exclude : list string) : JS unit :=
  m <- this_connections ;;
  forEach m (fun connection i =>
    if includes exclude i then ret tt
    else
      rs <- get_readyState (ws connection) ;;
      if rs =? 1 then
        try_catch
          (t <- timestamp_or_now (timestamp message) ;;
           payload <- call_JSON_stringify (with_timestamp message t) ;;
           call_send (ws connection) payload)
          (fun error => console_error ("Failed to broadcast to " ++ i ++ ":") error)
      else ret tt).

(** *** What the claims speak of *)

(** The timestamp that goes on the wire for a message handed over when the
    host is in [wd]. *)
Definition wire_timestamp (message : Message) (wd : World) : Z :=
  match timestamp message with
  | Some n => if n =? 0 then Date_now wd else n
  | None => Date_now wd
  end.

(** An entry of the registry whose key is not excluded and whose socket is
    open (readyState 1) in [wd]. *)
Definition recipient (exclude : list string) (wd : World)
    (entry : string * Connection) : bool :=
  negb (includes exclude (fst entry)) && (readyState (ws (snd entry)) wd =? 1).

(** A write does not change the [readyState] that the manager reads. *)
Definition send_keeps_readyState : Prop :=
  forall w payload wd w',
    readyState w' (snd (ws_send w payload wd)) = readyState w' wd.

(** Every record is registered under its own id. *)
Definition keyed_by_id (m : JSMap.t Connection) : Prop :=
  forall k c, In (k, c) m -> id c = k.

Definition count_adds (ops : list Op) : nat :=
  length (filter (fun op => match op with OpAdd _ _ => true | _ => false end) ops).

End Manager.

Arguments Op : clear implicits.

(** ** A host for tests

    The sockets of the repository's tests are plain objects
    [{ readyState, send, close }].  This host has a socket for every
    reference: its [readyState] is looked up in a table, a table says whose
    [send] and whose [close] throw, a write takes one millisecond of the
    clock, a successful [close] leaves the socket CLOSING (2), and the
    random source counts. *)
Module Mock.

Record World : Type := mkWorld {
  clock : Z;
  next_uuid : nat;
  state_of : WebSocket -> Z;
  send_throws : WebSocket -> bool;
  close_throws : WebSocket -> bool
}.

Definition dquote : string := String (ascii_of_nat 34) EmptyString.

Definition decimal (z : Z) : string := NilZero.string_of_int (Z.to_int z).

Definition quoted (s : string) : string := dquote ++ s ++ dquote.

Definition stringify (m : WSMessage Z) : string :=
  "{" ++ quoted "type" ++ ":" ++ quoted (type m) ++ ","
      ++ quoted "data" ++ ":" ++ decimal (data m)
      ++ match timestamp m with
         | Some t => "," ++ quoted "timestamp" ++ ":" ++ decimal t
         | None => ""%string
         end
      ++ "}".

Definition tick (wd : World) : World :=
  mkWorld (clock wd + 1) (next_uuid wd) (state_of wd) (send_throws wd) (close_throws wd).

Definition closing (w : WebSocket) (wd : World) : World :=
  mkWorld (clock wd) (next_uuid wd)
          (fun w' => if Nat.eqb w' w then 2 else state_of wd w')
          (send_throws wd) (close_throws wd).

Definition socket_send (w : WebSocket) (payload : string) (wd : World)
    : Completion unit * World :=
  if send_throws wd w then (Throw "write EPIPE", tick wd)
  else (Normal tt, tick wd).

Definition socket_close (w : WebSocket) (wd : World) : Completion unit * World :=
  if close_throws wd w then (Throw "close failed", wd)
  else (Normal tt, closing w wd).

Definition uuid (wd : World) : string * World :=
  ("uuid-" ++ decimal (Z.of_nat (next_uuid wd)),
   mkWorld (clock wd) (S (next_uuid wd)) (state_of wd) (send_throws wd) (close_throws wd)).

#[global] Instance runtime : Runtime World Z := {|
  readyState := fun w wd => state_of wd w;
  ws_send := socket_send;
  ws_close := socket_close;
  Date_now := clock;
  randomUUID := uuid;
  JSON_stringify := fun m => Normal (stringify m)
|}.

(** Data as the code types it, [any]: a number, or an object that refers to
    itself, which [JSON.stringify] refuses. *)
Inductive Value : Type :=
| Num (z : Z)
| Cyclic.

Definition stringify_value (m : WSMessage Value) : Completion string :=
  match data m with
  | Num z => Normal (stringify (mkMessage (type m) z (timestamp m)))
  | Cyclic => Throw "TypeError: Converting circular structure to JSON"
  end.

(** The same host for envelopes with such data. *)
Definition runtime_any : Runtime World Value := {|
  readyState := fun w wd => state_of wd w;
  ws_send := socket_send;
  ws_close := socket_close;
  Date_now := clock;
  randomUUID := uuid;
  JSON_stringify := stringify_value
|}.

(** The frame rendered for type "x", data 1 and the given timestamp. *)
Definition frame (t : Z) : string := stringify (mkMessage "x" 1 (Some t)).

(** Every socket open, nothing throws, the clock at [t]. *)
Definition healthy (t : Z) : World :=
  mkWorld t 0 (fun _ => 1) (fun _ => false) (fun _ => false).

(** A fresh manager on a host. *)
Definition fresh (wd : World) : Sys World unit :=
  mkSys JSMap.empty wd [] [].

(** A manager with the given registry on a host. *)
Definition manager (m : JSMap.t (WSConnection unit)) (wd : World) : Sys World unit :=
  mkSys m wd [] [].

Definition conn (w : WebSocket) (i : string) : string * WSConnection unit :=
  (i, mkConnection w i None).

(** Four registered sockets: the send of socket 1 throws, the close of
    socket 2 throws, socket 4 is CLOSED (3), and all but socket 4 are open. *)
Definition registry : JSMap.t (WSConnection unit) :=
  [conn 1 "a"; conn 2 "b"; conn 3 "c"; conn 4 "d"].

Definition troubled (t : Z) : World :=
  mkWorld t 0
          (fun w => if Nat.eqb w 4 then 3 else 1)
          (fun w => Nat.eqb w 1)
          (fun w => Nat.eqb w 2).

End Mock.

(** The socket a call was made on. *)
Definition call_socket (c : Call) : WebSocket :=
  match c with
  | CallSend w _ => w
  | CallClose w => w
  end.

(** ** JavaScript's [Set] of strings

    A [Set] iterates in insertion order and holds a value once. *)
Module JSSet.

Definition t : Type := list string.

Definition has (x : string) (s : t) : bool := existsb (String.eqb x) s.

Definition add (x : string) (s : t) : t := if has x s then s else (s ++ [x])%list.

Definition delete (x : string) (s : t) : t :=
  filter (fun y => negb (String.eqb x y)) s.

Definition size (s : t) : nat := length s.

End JSSet.

(** ** The chat example's rooms (examples/vite.config.ts)

    [const rooms = new Map<string, Set<string>>()] is a variable of the
    module; [joinRoom] and [leaveRoom] update it and [broadcastToRoom] reads
    it.  The map is passed and returned here. *)
Module Chat.

Definition Rooms : Type := JSMap.t JSSet.t.

(** [rooms.get(roomId)!.add(userId)] would throw a TypeError on a room that
    is not there; the completion keeps that case. *)
Definition joinRoom (userId roomId : string) (rooms : Rooms) : Completion unit * Rooms :=
  let rooms1 :=
    if negb (JSMap.has roomId rooms) then JSMap.set roomId [] rooms else rooms in
  match JSMap.get roomId rooms1 with
  | Some room => (Normal tt, JSMap.set roomId (JSSet.add userId room) rooms1)
  | None => (Throw "TypeError: Cannot read properties of undefined", rooms1)
  end.

Definition leaveRoom (userId roomId : string) (rooms : Rooms) : Rooms :=
  match JSMap.get roomId rooms with
  | Some room =>
      let room' := JSSet.delete userId room in
      if Nat.eqb (JSSet.size room') 0 then snd (JSMap.delete roomId rooms)
      else JSMap.set roomId room' rooms
  | None => rooms
  end.

(** What a client of the rooms does. *)
Inductive RoomOp : Type :=
| Join (userId roomId : string)
| Leave (userId roomId : string).

Fixpoint run_rooms (ops : list RoomOp) (rooms : Rooms) : Completion unit * Rooms :=
  match ops with
  | [] => (Normal tt, rooms)
  | Join u r :: rest =>
      match joinRoom u r rooms with
      | (Normal _, rooms') => run_rooms rest rooms'
      | (Throw e, rooms') => (Throw e, rooms')
      end
  | Leave u r :: rest => run_rooms rest (leaveRoom u r rooms)
  end.

(** [userId] is in the room [roomId]. *)
Definition is_member (userId roomId : string) (rooms : Rooms) : bool :=
  match JSMap.get roomId rooms with
  | Some room => JSSet.has userId room
  | None => false
  end.

(** No room is registered twice, no room is empty, nobody is twice in a room. *)
Definition rooms_ok (rooms : Rooms) : Prop :=
  JSMap.wf rooms /\
  forall r room, In (r, room) rooms -> room <> [] /\ NoDup room.

Section WithManager.

Context {World Data Meta : Type} {RT : Runtime World Data}.

(** [Set.prototype.forEach] *)
Fixpoint Set_forEach (room : JSSet.t)
    (f : string -> JS (World := World) (Meta := Meta) unit)
    : JS (World := World) (Meta := Meta) unit :=
  match room with
  | [] => ret tt
  | x :: rest => bind (f x) (fun _ => Set_forEach rest f)
  end.

(** [!exclude?.includes(userId)] with [exclude] an optional argument. *)
Definition not_excluded (exclude : option (list string)) (userId : string) : bool :=
  negb match exclude with
       | Some l => includes l userId
       | None => false
       end.

Definition broadcastToRoom (rooms : Rooms) (roomId : string)
    (message : WSMessage Data) (exclude : option (list string))
    : JS (World := World) (Meta := Meta) unit :=
  match JSMap.get roomId rooms with
  | None => ret tt
  | Some room =>
      Set_forEach room (fun userId =>
        if not_excluded exclude userId
        then bind (send userId message) (fun _ => ret tt)
        else ret tt)
  end.

End WithManager.

End Chat.

(** ** The example's server-side helper (examples/src/lib/websocket.ts)

    [WebSocketHelper] wraps the global manager; what it reads of a
    connection's metadata is [userId] and [rooms].  Its [async] methods have
    no [await] inside, so each runs to completion when called. *)
Module Helper.

(** The part of [metadata] the helper looks at. *)
Record UserMeta : Type := mkMeta {
  userId : option string;
  rooms : option (list string)
}.

(** [conn.metadata?.userId] *)
Definition metadata_userId (conn : WSConnection UserMeta) : option string :=
  match metadata conn with
  | Some md => userId md
  | None => None
  end.

(** [conn.metadata?.userId === userId] *)
Definition is_user (conn : WSConnection UserMeta) (u : string) : bool :=
  match metadata_userId conn with
  | Some v => String.eqb v u
  | None => false
  end.

(** [conn.metadata?.userId && excludeUserIds.includes(conn.metadata.userId)]:
    the empty string is falsy. *)
Definition user_excluded (excludeUserIds : list string)
    (conn : WSConnection UserMeta) : bool :=
  match metadata_userId conn with
  | Some v => negb (String.eqb v "") && includes excludeUserIds v
  | None => false
  end.

(** [userRooms?.includes(roomId)] *)
Definition in_room (conn : WSConnection UserMeta) (roomId : string) : bool :=
  match metadata conn with
  | Some md =>
      match rooms md with
      | Some l => includes l roomId
      | None => false
      end
  | None => false
  end.

(** [excludeUserIds.includes(conn.metadata?.userId)]: [undefined] is in no
    list of strings. *)
Definition shouldExclude (excludeUserIds : list string)
    (conn : WSConnection UserMeta) : bool :=
  match metadata_userId conn with
  | Some v => includes excludeUserIds v
  | None => false
  end.

(** An element of the array that [getConnectedUsers] returns. *)
Record ConnectedUser : Type := mkUser {
  connectionId : string;
  user_userId : option string;
  user_metadata : option UserMeta
}.

Section WithManager.

Context {World Data : Type} {RT : Runtime World Data}.

Local Abbreviation JSh := (JS (World := World) (Meta := UserMeta)).
Local Abbreviation wsManager_broadcast := broadcast.
Local Notation "x <- m ;; k" := (bind m (fun x => k))
  (at level 100, m at next level, right associativity).
Local Notation "m ;;; k" := (bind m (fun _ => k))
  (at level 100, right associativity).

(** [console.warn(msg)]: a line on the console, with no error beside it. *)
Definition console_warn (msg : string) : JSh unit :=
  fun s =>
    (Normal tt,
     mkSys (connections s) (world s) (calls s) (console s ++ [(msg, ""%string)])).

Definition sendToConnection (connId ty : string) (d : Data) : JSh bool :=
  now <- call_Date_now ;;
  send connId (mkMessage ty d (Some now)).

(** The [for ... of] of [sendToUser], with its [return] inside. *)
Fixpoint sendToUser_loop (l : JSMap.t (WSConnection UserMeta))
    (u ty : string) (d : Data) : JSh bool :=
  match l with
  | [] =>
      console_warn ("[WS Helper] User " ++ u ++ " not found or not connected") ;;;
      ret false
  | (connId, conn) :: rest =>
      if is_user conn u then
        now <- call_Date_now ;;
        send connId (mkMessage ty d (Some now))
      else sendToUser_loop rest u ty d
  end.

Definition sendToUser (u ty : string) (d : Data) : JSh bool :=
  m <- getConnections ;;
  sendToUser_loop m u ty d.

(** The loop of [broadcast] that turns user ids into connection ids. *)
Fixpoint excluded_connections (l : JSMap.t (WSConnection UserMeta))
    (excludeUserIds : list string) : list string :=
  match l with
  | [] => []
  | (connId, conn) :: rest =>
      if user_excluded excludeUserIds conn
      then connId :: excluded_connections rest excludeUserIds
      else excluded_connections rest excludeUserIds
  end.

Definition broadcast (ty : string) (d : Data) (excludeUserIds : list string)
    : JSh unit :=
  m <- getConnections ;;
  let excludeConnIds :=
    if (0 <? length excludeUserIds)%nat
    then excluded_connections m excludeUserIds
    else [] in
  now <- call_Date_now ;;
  wsManager_broadcast (mkMessage ty d (Some now)) excludeConnIds.

(** The [for ... of] of [broadcastToRoom]; the result of [send] is dropped. *)
Fixpoint broadcastToRoom_loop (l : JSMap.t (WSConnection UserMeta))
    (roomId ty : string) (d : Data) (excludeUserIds : list string) : JSh unit :=
  match l with
  | [] => ret tt
  | (connId, conn) :: rest =>
      (if in_room conn roomId then
         if negb (shouldExclude excludeUserIds conn) then
           now <- call_Date_now ;;
           send connId (mkMessage ty d (Some now)) ;;;
           ret tt
         else ret tt
       else ret tt) ;;;
      broadcastToRoom_loop rest roomId ty d excludeUserIds
  end.

Definition broadcastToRoom (roomId ty : string) (d : Data)
    (excludeUserIds : list string) : JSh unit :=
  m <- getConnections ;;
  broadcastToRoom_loop m roomId ty d excludeUserIds.

(** The [for ... of] of [getConnectedUsers], pushing one element per entry. *)
Fixpoint connected_users (l : JSMap.t (WSConnection UserMeta)) : list ConnectedUser :=
  match l with
  | [] => []
  | (connId, conn) :: rest =>
      mkUser connId (metadata_userId conn) (metadata conn) :: connected_users rest
  end.

Definition getConnectedUsers : JSh (list ConnectedUser) :=
  m <- getConnections ;;
  ret (connected_users m).

Definition getConnectionCount : JSh nat := size.

(** The [for ... of] of [isUserOnline]. *)
Fixpoint isUserOnline_loop (l : JSMap.t (WSConnection UserMeta)) (u : string) : bool :=
  match l with
  | [] => false
  | (_, conn) :: rest => if is_user conn u then true else isUserOnline_loop rest u
  end.

Definition isUserOnline (u : string) : JSh bool :=
  m <- getConnections ;;
  ret (isUserOnline_loop m u).

(** The [for ... of] of [disconnectUser]. *)
Fixpoint disconnectUser_loop (l : JSMap.t (WSConnection UserMeta)) (u : string)
    : JSh bool :=
  match l with
  | [] => ret false
  | (connId, conn) :: rest =>
      if is_user conn u then disconnect connId else disconnectUser_loop rest u
  end.

Definition disconnectUser (u : string) : JSh bool :=
  m <- getConnections ;;
  disconnectUser_loop m u.

(** An entry that [broadcast] writes to: its user is not excluded and its
    socket is open in [wd]. *)
Definition broadcast_recipient (excludeUserIds : list string) (wd : World)
    (entry : string * WSConnection UserMeta) : bool :=
  negb (user_excluded excludeUserIds (snd entry))
  && (readyState (ws (snd entry)) wd =? 1).

(** An entry that [broadcastToRoom] writes to: it is in the room, its user
    is not excluded and its socket is open in [wd]. *)
Definition room_recipient (roomId : string) (excludeUserIds : list string)
    (wd : World) (entry : string * WSConnection UserMeta) : bool :=
  in_room (snd entry) roomId
  && negb (shouldExclude excludeUserIds (snd entry))
  && (readyState (ws (snd entry)) wd =? 1).

End WithManager.

End Helper.

(** ** The plugin and the production handler (src/vite.ts, src/server.ts)

    [webSocketServer] and [createWebSocketHandler] keep, beside the global
    manager, a private [heartbeatTimers: Map<string, Timeout>] and the
    [WebSocketServer] they created.  Their listeners are [async]: a listener
    runs to its first [await] and runs on when the awaited application
    handler has settled; each such stretch is a function here.  The host's
    timers are a table: [setInterval] hands out the next handle and starts
    it, [clearInterval] stops the handle it is given. *)
Module Plugin.

Definition Timer : Type := nat.

Record State (World Meta : Type) : Type := mkState {
  manager : Sys World Meta;
  heartbeatTimers : JSMap.t Timer;
  intervals : list Timer;
  next_timer : Timer;
  cleared : list Timer;
  wss : option bool;
  stdout : list string
}.

Arguments mkState {World Meta} _ _ _ _ _ _ _.
Arguments manager {World Meta} _.
Arguments heartbeatTimers {World Meta} _.
Arguments intervals {World Meta} _.
Arguments next_timer {World Meta} _.
Arguments cleared {World Meta} _.
Arguments wss {World Meta} _.
Arguments stdout {World Meta} _.

Section WithManager.

Context {World Data Meta : Type} {RT : Runtime World Data}.

Local Abbreviation St := (State World Meta).

Definition P (A : Type) : Type := St -> Completion A * St.

Definition retP {A : Type} (a : A) : P A := fun st => (Normal a, st).

Definition bindP {A B : Type} (m : P A) (k : A -> P B) : P B :=
  fun st =>
    match m st with
    | (Normal a, st') => k a st'
    | (Throw e, st') => (Throw e, st')
    end.

Local Notation "x <- m ;; k" := (bindP m (fun x => k))
  (at level 100, m at next level, right associativity).
Local Notation "m ;;; k" := (bindP m (fun _ => k))
  (at level 100, right associativity).

(** A method of the global manager, called from the plugin. *)
Definition on_manager {A : Type} (m : JS (World := World) (Meta := Meta) A) : P A :=
  fun st =>
    let (r, s') := m (manager st) in
    (r, mkState s' (heartbeatTimers st) (intervals st) (next_timer st)
                (cleared st) (wss st) (stdout st)).

Definition console_log (line : string) : P unit :=
  fun st =>
    (Normal tt,
     mkState (manager st) (heartbeatTimers st) (intervals st) (next_timer st)
             (cleared st) (wss st) (stdout st ++ [line])).

(** [setInterval(callback, heartbeatInterval)]: the handle is what the
    plugin keeps; when the callback fires is the host's business. *)
Definition setInterval : P Timer :=
  fun st =>
    (Normal (next_timer st),
     mkState (manager st) (heartbeatTimers st)
             (intervals st ++ [next_timer st]) (S (next_timer st))
             (cleared st) (wss st) (stdout st)).

Definition clearInterval (timer : Timer) : P unit :=
  fun st =>
    (Normal tt,
     mkState (manager st) (heartbeatTimers st)
             (filter (fun t => negb (Nat.eqb t timer)) (intervals st))
             (next_timer st) (cleared st ++ [timer]) (wss st) (stdout st)).

Definition this_heartbeatTimers : P (JSMap.t Timer) :=
  fun st => (Normal (heartbeatTimers st), st).

Definition set_heartbeatTimers (m : JSMap.t Timer) : P unit :=
  fun st =>
    (Normal tt,
     mkState (manager st) m (intervals st) (next_timer st)
             (cleared st) (wss st) (stdout st)).

(** [wss?.close()] *)
Definition wss_close : P unit :=
  fun st =>
    (Normal tt,
     mkState (manager st) (heartbeatTimers st) (intervals st) (next_timer st)
             (cleared st)
             match wss st with
             | Some _ => Some true
             | None => None
             end
             (stdout st)).

(** [heartbeatTimers.forEach((timer) => clearInterval(timer))] *)
Fixpoint forEach_timer (m : JSMap.t Timer) (f : Timer -> P unit) : P unit :=
  match m with
  | [] => retP tt
  | (_, timer) :: rest => f timer ;;; forEach_timer rest f
  end.

(** The ['connection'] listener up to [await handlers.onConnect?.(connection)]. *)
Definition on_connection_register (w : WebSocket) (md : Meta)
    : P (WSConnection Meta) :=
  connection <- on_manager (addConnection w (Some md)) ;;
  console_log ("[WS] Client connected: " ++ id connection) ;;;
  retP connection.

(** The ['connection'] listener after the [await]: the heartbeat. *)
Definition on_connection_heartbeat (heartbeat : bool)
    (connection : WSConnection Meta) : P unit :=
  if heartbeat then
    timer <- setInterval ;;
    m <- this_heartbeatTimers ;;
    set_heartbeatTimers (JSMap.set (id connection) timer m)
  else retP tt.

(** The socket's ['close'] listener up to [await handlers.onDisconnect?.(connection)]. *)
Definition on_close (connection : WSConnection Meta) : P unit :=
  console_log ("[WS] Client disconnected: " ++ id connection) ;;;
  m <- this_heartbeatTimers ;;
  match JSMap.get (id connection) m with
  | Some timer =>
      clearInterval timer ;;;
      set_heartbeatTimers (snd (JSMap.delete (id connection) m))
  | None => retP tt
  end ;;;
  on_manager (removeConnection (id connection)) ;;;
  retP tt.

(** [closeBundle()], and the function that [createWebSocketHandler] returns. *)
Definition closeBundle : P unit :=
  m <- this_heartbeatTimers ;;
  forEach_timer m clearInterval ;;;
  set_heartbeatTimers JSMap.empty ;;;
  on_manager clear ;;;
  wss_close.

(** What happens to a plugin, one stretch at a time. *)
Inductive Event : Type :=
| EvConnection (w : WebSocket) (md : Meta)
| EvHeartbeat (connection : WSConnection Meta)
| EvClose (connection : WSConnection Meta)
| EvCloseBundle.

Definition handle (heartbeat : bool) (ev : Event) : P unit :=
  match ev with
  | EvConnection w md => on_connection_register w md ;;; retP tt
  | EvHeartbeat connection => on_connection_heartbeat heartbeat connection
  | EvClose connection => on_close connection
  | EvCloseBundle => closeBundle
  end.

Fixpoint run_events (heartbeat : bool) (evs : list Event) : P unit :=
  match evs with
  | [] => retP tt
  | ev :: rest => handle heartbeat ev ;;; run_events heartbeat rest
  end.

(** The ids of the connections whose heartbeat the events set up. *)
Fixpoint heartbeat_ids (evs : list Event) : list string :=
  match evs with
  | [] => []
  | EvHeartbeat connection :: rest => id connection :: heartbeat_ids rest
  | _ :: rest => heartbeat_ids rest
  end.

End WithManager.

Arguments Event : clear implicits.

(** A timer that is none of [ts]. *)
Definition none_of (ts : list Timer) (t : Timer) : bool :=
  negb (existsb (Nat.eqb t) ts).

(** The timers that run are the timers on record, in the order of the
    record; no id has two timers, no timer runs twice, and the handles the
    host will give out next are not in use. *)
Definition timers_on_record {World Meta : Type} (st : State World Meta) : Prop :=
  intervals st = JSMap.values (heartbeatTimers st) /\
  JSMap.wf (heartbeatTimers st) /\
  NoDup (intervals st) /\
  Forall (fun t => (t < next_timer st)%nat) (intervals st).

End Plugin.

(** ** Scenes for the example and the plugin, on the test host *)
Module Demo.

Definition user (w : WebSocket) (i u : string) (rs : list string)
    : string * WSConnection Helper.UserMeta :=
  (i, mkConnection w i (Some (Helper.mkMeta (Some u) (Some rs)))).

Definition anonymous (w : WebSocket) (i : string)
    : string * WSConnection Helper.UserMeta :=
  (i, mkConnection w i None).

(** bob on socket 2; ann twice, first on socket 4 and later on socket 3;
    and a connection on socket 5 that has not identified itself. *)
Definition registry : JSMap.t (WSConnection Helper.UserMeta) :=
  [user 2 "c2" "bob" ["lobby"; "dev"];
   user 4 "c1" "ann" ["lobby"];
   user 3 "c3" "ann" ["dev"];
   anonymous 5 "c4"].

Definition helper (wd : Mock.World) : Sys Mock.World Helper.UserMeta :=
  mkSys registry wd [] [].

(** One room with one member. *)
Definition rooms : Chat.Rooms := [("lobby", ["ann"])].

(** A plugin that has just created its WebSocketServer. *)
Definition plugin : Plugin.State Mock.World unit :=
  Plugin.mkState (Mock.fresh (Mock.healthy 100)) JSMap.empty [] 0%nat [] (Some false) [].

End Demo.

(** * Proofs *)

(** ** The [Map] *)
Module JSMapFacts.
Import JSMap.

Section Facts.

Context {V : Type}.
Implicit Types (m : JSMap.t V) (k : string) (v : V).

Lemma get_set_same m k v : get k (set k v m) = Some v.
Proof.
  induction m as [|[k' v'] m IH]; simpl.
  - now rewrite String.eqb_refl.
  - destruct (String.eqb k k') eqn:E; simpl; rewrite ?String.eqb_refl, ?E; auto.
Qed.

Lemma get_set_other m k k' v : k' <> k -> get k' (set k v m) = get k' m.
Proof.
  intros Hne. induction m as [|[k0 v0] m IH]; simpl.
  - apply String.eqb_neq in Hne. now rewrite Hne.
  - destruct (String.eqb k k0) eqn:E; simpl.
    + apply String.eqb_eq in E. subst k0.
      apply String.eqb_neq in Hne. now rewrite Hne.
    + now rewrite IH.
Qed.

Lemma get_none_not_in m k : get k m = None <-> ~ In k (keys m).
Proof.
  induction m as [|[k' v'] m IH]; simpl.
  - tauto.
  - destruct (String.eqb k k') eqn:E.
    + apply String.eqb_eq in E. subst. split; [discriminate | tauto].
    + apply String.eqb_neq in E. rewrite IH. split.
      * intros H [H1 | H1]; [congruence | tauto].
      * tauto.
Qed.

Lemma get_some_in m k v : get k m = Some v -> In (k, v) m.
Proof.
  induction m as [|[k' v'] m IH]; simpl; [discriminate|].
  destruct (String.eqb k k') eqn:E.
  - apply String.eqb_eq in E. intros [= ->]. subst. now left.
  - auto.
Qed.

Lemma set_fresh m k v : get k m = None -> set k v m = (m ++ [(k, v)])%list.
Proof.
  induction m as [|[k' v'] m IH]; simpl; auto.
  destruct (String.eqb k k'); [discriminate|].
  intros H. now rewrite IH.
Qed.

Lemma keys_set_present m k v : get k m <> None -> keys (set k v m) = keys m.
Proof.
  induction m as [|[k' v'] m IH]; simpl; [congruence|].
  destruct (String.eqb k k') eqn:E; simpl.
  - apply String.eqb_eq in E. now subst.
  - intros H. now rewrite IH.
Qed.

Lemma delete_has m k : fst (delete k m) = has k m.
Proof. reflexivity. Qed.

Lemma delete_absent m k : get k m = None -> delete k m = (false, m).
Proof.
  intros H. unfold delete, has. rewrite H. f_equal.
  induction m as [|[k' v'] m IH]; simpl in *; auto.
  destruct (String.eqb k k'); [discriminate|]. simpl. now rewrite IH.
Qed.

Lemma get_delete_same m k : get k (snd (delete k m)) = None.
Proof.
  unfold delete; simpl.
  induction m as [|[k' v'] m IH]; simpl; auto.
  destruct (String.eqb k k') eqn:E; simpl; auto. now rewrite E.
Qed.

Lemma get_delete_other m k k' : k' <> k -> get k' (snd (delete k m)) = get k' m.
Proof.
  intros Hne. unfold delete; simpl.
  induction m as [|[k0 v0] m IH]; simpl; auto.
  destruct (String.eqb k k0) eqn:E; simpl.
  - apply String.eqb_eq in E. subst k0.
    apply String.eqb_neq in Hne. now rewrite Hne.
  - now rewrite IH.
Qed.

Lemma in_set m k v e : In e (set k v m) -> e = (k, v) \/ In e m.
Proof.
  induction m as [|[k' v'] m IH]; simpl.
  - intros [<- | []]. now left.
  - destruct (String.eqb k k'); simpl; intros [<- | H]; auto.
    destruct (IH H); auto.
Qed.

Lemma in_delete m k e : In e (snd (delete k m)) -> In e m.
Proof. unfold delete; simpl. rewrite filter_In. tauto. Qed.

Lemma keys_delete_incl m k k' : In k' (keys (snd (delete k m))) -> In k' (keys m).
Proof.
  unfold keys. rewrite !in_map_iff. intros [e [He Hin]].
  exists e. split; auto. eapply in_delete; eauto.
Qed.

Lemma wf_delete m k : wf m -> wf (snd (delete k m)).
Proof.
  unfold wf, delete, keys; simpl.
  induction m as [|[k' v'] m IH]; simpl; auto.
  intros H. inversion H as [|? ? Hnin Hnd]; subst.
  destruct (String.eqb k k'); simpl; auto.
  constructor; auto.
  intros Hin. apply Hnin.
  apply in_map_iff in Hin. destruct Hin as [e [He Hin]].
  apply filter_In in Hin. apply in_map_iff. exists e. tauto.
Qed.

Lemma wf_set m k v : wf m -> wf (set k v m).
Proof.
  intros H. destruct (get k m) eqn:E.
  - unfold wf. rewrite keys_set_present; [auto | congruence].
  - rewrite set_fresh by auto. unfold wf, keys. rewrite map_app. simpl.
    apply NoDup_app; auto.
    + repeat constructor. simpl. tauto.
    + intros x Hx [<- | []]. apply get_none_not_in in E. now apply E.
Qed.

(** A present key is counted once: deleting it takes the size down by one. *)
Lemma size_delete_present m k v :
  wf m -> get k m = Some v -> S (size (snd (delete k m))) = size m.
Proof.
  unfold wf, delete, size, keys; simpl.
  induction m as [|[k' v'] m IH]; simpl; [discriminate|].
  intros Hnd. inversion Hnd as [|? ? Hnin Hnd']; subst.
  destruct (String.eqb k k') eqn:E; simpl.
  - apply String.eqb_eq in E. subst k'. intros _. f_equal.
    assert (Hk : get k m = None) by (apply get_none_not_in; exact Hnin).
    pose proof (delete_absent m k Hk) as Hd. unfold delete in Hd.
    injection Hd as _ Hd. now rewrite Hd.
  - intros Hg. f_equal. now apply IH.
Qed.

End Facts.
End JSMapFacts.

(** ** The manager *)

Ltac js_unfold :=
  unfold addConnection, getConnection, getConnections, send, broadcast,
    removeConnection, connections_delete, disconnect, size, clear,
    timestamp_or_now, bind, ret, try_catch, this_connections, set_connections,
    get_readyState, call_send, call_close, call_Date_now, call_randomUUID,
    call_JSON_stringify, console_error.

Section ManagerFacts.

Context {World Data Meta : Type} {RT : Runtime World Data}.
Implicit Types (s : Sys World Meta) (message : WSMessage Data)
  (c : WSConnection Meta) (i : string) (exclude : list string).

Lemma sys_eta s : mkSys (connections s) (world s) (calls s) (console s) = s.
Proof. now destruct s. Qed.

(** [message.timestamp || Date.now()] never throws, touches nothing, and
    yields [wire_timestamp]. *)
Lemma timestamp_or_now_spec message s :
  timestamp_or_now (timestamp message) s = (Normal (wire_timestamp message (world s)), s).
Proof.
  unfold timestamp_or_now, wire_timestamp, call_Date_now, ret.
  destruct (timestamp message) as [n|]; [destruct (n =? 0)|]; reflexivity.
Qed.

(** C7. addConnection(channel, metadata) returns normally with a record that
    holds exactly the channel and the metadata passed in and the id that the
    random source gave; getConnection on that id, right after, returns that
    very record. *)
Theorem addConnection_then_getConnection s (w : WebSocket) (md : option Meta) :
  exists c s',
    addConnection w md s = (Normal c, s') /\
    ws c = w /\ metadata c = md /\ id c = fst (randomUUID (world s)) /\
    getConnection (id c) s' = (Normal (Some c), s').
Proof.
  js_unfold. destruct (randomUUID (world s)) as [u wd]. simpl.
  eexists. eexists. split; [reflexivity|]. simpl.
  repeat split. now rewrite JSMapFacts.get_set_same.
Qed.

(** C3. When the id is not registered, or is registered with a socket whose
    readyState is not 1 (open), send returns false and the whole system is
    as before: no call was made on any socket, nothing was logged and the
    registry has the same entries. *)
Theorem send_absent_or_not_open s i message :
  (JSMap.get i (connections s) = None \/
   exists c, JSMap.get i (connections s) = Some c /\
             readyState (ws c) (world s) <> 1) ->
  send i message s = (Normal false, s).
Proof.
  intros [H | [c [H Hrs]]]; js_unfold; rewrite H; [reflexivity|].
  apply Z.eqb_neq in Hrs. now rewrite Hrs.
Qed.

(** C4. When the id is registered with an open socket and the socket's send
    throws on the frame that was rendered, send catches the error: it
    completes normally with false, logs the error, and the registry is
    untouched, so getConnection still gives the record and size is what it
    was. *)
Theorem send_write_failure s i message c (payload : string) (e : Error)
    (wd : World) :
  JSMap.get i (connections s) = Some c ->
  readyState (ws c) (world s) = 1 ->
  JSON_stringify (with_timestamp message (wire_timestamp message (world s)))
  = Normal payload ->
  ws_send (ws c) payload (world s) = (Throw e, wd) ->
  exists s',
    send i message s = (Normal false, s') /\
    connections s' = connections s /\
    getConnection i s' = (Normal (Some c), s') /\
    size s' = (Normal (JSMap.size (connections s)), s') /\
    calls s' = (calls s ++ [CallSend (ws c) payload])%list /\
    console s' = (console s ++ [(("Failed to send message to " ++ i ++ ":")%string, e)])%list.
Proof.
  intros Hget Hopen Hjson Hthrow.
  unfold send, bind at 1, this_connections. rewrite Hget.
  unfold bind at 1, get_readyState. rewrite Hopen. simpl.
  unfold try_catch, bind at 1. rewrite timestamp_or_now_spec.
  unfold bind at 1, call_JSON_stringify. rewrite Hjson.
  unfold bind, call_send. rewrite Hthrow.
  unfold console_error, ret. simpl.
  eexists. split; [reflexivity|].
  js_unfold. simpl. rewrite Hget. repeat split.
Qed.

(** C8. disconnect always completes normally.  For an id that is not
    registered it returns false and changes nothing.  For a registered id it
    calls close on the record's socket, once; when close returns, the entry
    is deleted (getConnection on the id then finds nothing) and the result
    is true; when close throws, the error is caught and logged and the
    result is false. *)
Theorem disconnect_cases s i :
  exists (b : bool) s',
    disconnect i s = (Normal b, s') /\
    match JSMap.get i (connections s) with
    | None => b = false /\ s' = s
    | Some c =>
        calls s' = (calls s ++ [CallClose (ws c)])%list /\
        match ws_close (ws c) (world s) with
        | (Normal _, wd) =>
            b = true /\ world s' = wd /\
            connections s' = snd (JSMap.delete i (connections s)) /\
            getConnection i s' = (Normal None, s') /\
            console s' = console s
        | (Throw e, wd) =>
            b = false /\ world s' = wd /\
            console s' = (console s ++ [(("Failed to disconnect " ++ i ++ ":")%string, e)])%list
        end
    end.
Proof.
  unfold disconnect, bind at 1, this_connections.
  destruct (JSMap.get i (connections s)) as [c|] eqn:Hget.
  - unfold try_catch, bind at 1, call_close.
    destruct (ws_close (ws c) (world s)) as [[[]|e] wd].
    + js_unfold. simpl. eexists. eexists. split; [reflexivity|]. simpl.
      repeat split.
      pose proof (JSMapFacts.get_delete_same (connections s) i) as Hd.
      simpl in Hd. now rewrite Hd.
    + js_unfold. simpl. eexists. eexists. split; [reflexivity|]. simpl.
      repeat split.
  - unfold ret. eexists. eexists. split; [reflexivity|]. split; reflexivity.
Qed.

(** C10. When the id is registered and the socket's close throws, disconnect
    returns false and the entry stays: getConnection still gives the record
    and size is unchanged. *)
Theorem disconnect_close_failure s i c (e : Error) (wd : World) :
  JSMap.get i (connections s) = Some c ->
  ws_close (ws c) (world s) = (Throw e, wd) ->
  exists s',
    disconnect i s = (Normal false, s') /\
    connections s' = connections s /\
    getConnection i s' = (Normal (Some c), s') /\
    size s' = (Normal (JSMap.size (connections s)), s').
Proof.
  intros Hget Hthrow.
  unfold disconnect, bind at 1, this_connections. rewrite Hget.
  unfold try_catch, bind at 1, call_close. rewrite Hthrow.
  js_unfold. simpl. eexists. split; [reflexivity|]. simpl.
  rewrite Hget. repeat split.
Qed.

(** One step of [clear]'s iteration: the close is called and whatever it
    throws is dropped. *)
Lemma clear_step (w : WebSocket) s :
  try_catch (call_close w) (fun _ => ret tt) s
  = (Normal tt,
     mkSys (connections s) (snd (ws_close w (world s)))
           (calls s ++ [CallClose w]) (console s)).
Proof.
  unfold try_catch, call_close, ret.
  now destruct (ws_close w (world s)) as [[[]|e] wd].
Qed.

(** The iteration of [clear]: one close per entry, in order, whatever each
    close does. *)
Lemma clear_loop (m : JSMap.t (WSConnection Meta)) :
  forall s, exists s',
    forEach m (fun connection _ =>
                 try_catch (call_close (ws connection)) (fun _ => ret tt)) s
      = (Normal tt, s') /\
    connections s' = connections s /\
    calls s' = (calls s ++ map (fun entry => CallClose (ws (snd entry))) m)%list /\
    console s' = console s.
Proof.
  induction m as [|[k c] m IH]; intros s; simpl.
  - exists s. unfold ret. now rewrite app_nil_r.
  - unfold bind at 1. rewrite clear_step.
    match goal with |- context [forEach m _ ?s1] =>
      destruct (IH s1) as (s' & Hrun & Hc & Hcalls & Hcon) end.
    exists s'. rewrite Hrun, Hc, Hcalls, Hcon. simpl.
    now rewrite <- app_assoc.
Qed.

(** C9. clear completes normally whatever the sockets' close methods do; it
    calls close once on the socket of every entry of the registry, in
    insertion order, logs nothing, and leaves the registry empty, so that
    size is 0 afterwards. *)
Theorem clear_closes_all_and_empties s :
  exists s',
    clear s = (Normal tt, s') /\
    connections s' = JSMap.empty /\
    size s' = (Normal 0%nat, s') /\
    calls s' = (calls s ++ map (fun entry => CallClose (ws (snd entry)))
                               (connections s))%list /\
    console s' = console s.
Proof.
  unfold clear, bind at 1, this_connections.
  destruct (clear_loop (connections s) s) as (s1 & Hrun & Hc & Hcalls & Hcon).
  unfold bind. rewrite Hrun. unfold set_connections.
  eexists. split; [reflexivity|]. simpl. rewrite Hcalls, Hcon.
  repeat split.
Qed.

(** *** Broadcast *)

(** The callback of [broadcast] on one entry: a recipient gets one write,
    and what the write throws ends in the console; anybody else is skipped.
    It completes normally in every case. *)
Lemma broadcast_to_spec (payload : string) exclude c i s :
  broadcast_to payload exclude c i s
  = (Normal tt,
     if recipient exclude (world s) (i, c) then
       mkSys (connections s) (snd (ws_send (ws c) payload (world s)))
             (calls s ++ [CallSend (ws c) payload])
             match fst (ws_send (ws c) payload (world s)) with
             | Normal _ => console s
             | Throw e =>
                 console s ++ [(("Failed to broadcast to " ++ i ++ ":")%string, e)]
             end
     else s).
Proof.
  unfold broadcast_to, recipient. simpl.
  destruct (includes exclude i); simpl; [reflexivity|].
  unfold bind, get_readyState.
  destruct (readyState (ws c) (world s) =? 1); [|reflexivity].
  unfold try_catch, call_send, console_error.
  now destruct (ws_send (ws c) payload (world s)) as [[[]|e] wd].
Qed.

Lemma recipient_ext exclude (wd wd' : World) (entry : string * WSConnection Meta) :
  (forall w, readyState w wd' = readyState w wd) ->
  recipient exclude wd' entry = recipient exclude wd entry.
Proof. intros H. unfold recipient. now rewrite H. Qed.

(** The iteration of [broadcast] when writes leave every [readyState] as it
    is: the writes go to the recipients, one each, in insertion order. *)
Lemma broadcast_loop (payload : string) exclude (m : JSMap.t (WSConnection Meta)) :
  send_keeps_readyState ->
  forall s, exists s',
    forEach m (broadcast_to payload exclude) s = (Normal tt, s') /\
    connections s' = connections s /\
    calls s' = (calls s ++ map (fun entry => CallSend (ws (snd entry)) payload)
                               (filter (recipient exclude (world s)) m))%list /\
    (forall w, readyState w (world s') = readyState w (world s)).
Proof.
  intros Hkeep. induction m as [|[k c] m IH]; intros s; simpl.
  - exists s. unfold ret. now rewrite app_nil_r.
  - unfold bind at 1. rewrite broadcast_to_spec.
    destruct (recipient exclude (world s) (k, c)) eqn:Hrec.
    + match goal with |- context [forEach m _ ?s1] =>
        destruct (IH s1) as (s' & Hrun & Hc & Hcalls & Hrs) end.
      simpl in Hc, Hcalls, Hrs.
      exists s'. rewrite Hrun, Hc, Hcalls. simpl.
      repeat split.
      * rewrite <- app_assoc. simpl. do 3 f_equal.
        apply filter_ext. intros entry. apply recipient_ext.
        intros w. apply Hkeep.
      * intros w. rewrite Hrs. apply Hkeep.
    + destruct (IH s) as (s' & Hrun & Hc & Hcalls & Hrs).
      exists s'. now rewrite Hrun.
Qed.

(** The iteration of [broadcast] for any host: whoever is written to is
    written the one payload that was built before the iteration. *)
Lemma broadcast_loop_payload (payload : string) exclude
    (m : JSMap.t (WSConnection Meta)) :
  forall s, exists s' new,
    forEach m (broadcast_to payload exclude) s = (Normal tt, s') /\
    connections s' = connections s /\
    calls s' = (calls s ++ new)%list /\
    Forall (fun call => exists w, call = CallSend w payload) new.
Proof.
  induction m as [|[k c] m IH]; intros s; simpl.
  - exists s, []. unfold ret. now rewrite app_nil_r.
  - unfold bind at 1. rewrite broadcast_to_spec.
    destruct (recipient exclude (world s) (k, c)).
    + match goal with |- context [forEach m _ ?s1] =>
        destruct (IH s1) as (s' & new & Hrun & Hc & Hcalls & Hall) end.
      simpl in Hc, Hcalls.
      exists s', (CallSend (ws c) payload :: new).
      rewrite Hrun, Hc, Hcalls, <- app_assoc. simpl.
      repeat split. constructor; eauto.
    + destruct (IH s) as (s' & new & Hrun & Hc & Hcalls & Hall).
      exists s', new. now rewrite Hrun.
Qed.

(** [broadcast] is the rendering of the frame and then the iteration. *)
Lemma broadcast_unfold s message exclude :
  broadcast message exclude s
  = match JSON_stringify
            (with_timestamp message (wire_timestamp message (world s))) with
    | Normal payload => forEach (connections s) (broadcast_to payload exclude) s
    | Throw e => (Throw e, s)
    end.
Proof.
  unfold broadcast, bind at 1.
  rewrite timestamp_or_now_spec. unfold bind at 1, call_JSON_stringify.
  now destruct (JSON_stringify _).
Qed.



(** *** Timestamps on the wire *)

Lemma wire_timestamp_supplied message (wd : World) (n : Z) :
  timestamp message = Some n -> n <> 0 -> wire_timestamp message wd = n.
Proof.
  intros H Hn. unfold wire_timestamp. rewrite H.
  apply Z.eqb_neq in Hn. now rewrite Hn.
Qed.

Lemma wire_timestamp_omitted message (wd : World) :
  timestamp message = None -> wire_timestamp message wd = Date_now wd.
Proof. intros H. unfold wire_timestamp. now rewrite H. Qed.

Lemma wire_timestamp_zero message (wd : World) :
  timestamp message = Some 0 -> wire_timestamp message wd = Date_now wd.
Proof. intros H. unfold wire_timestamp. now rewrite H. Qed.

(** What [send] writes to a registered, open socket. *)
Lemma send_wire_frame s i message c (payload : string) :
  JSMap.get i (connections s) = Some c ->
  readyState (ws c) (world s) = 1 ->
  JSON_stringify (with_timestamp message (wire_timestamp message (world s)))
  = Normal payload ->
  exists (b : bool) s',
    send i message s = (Normal b, s') /\
    calls s' = (calls s ++ [CallSend (ws c) payload])%list.
Proof.
  intros Hget Hopen Hjson.
  unfold send, bind at 1, this_connections. rewrite Hget.
  unfold bind at 1, get_readyState. rewrite Hopen. simpl.
  unfold try_catch, bind at 1. rewrite timestamp_or_now_spec.
  unfold bind at 1, call_JSON_stringify. rewrite Hjson.
  unfold bind, call_send.
  destruct (ws_send _ _ _) as [[[]|e] wd]; unfold console_error, ret; simpl;
    eexists; eexists; split; reflexivity.
Qed.

(** *** Registry membership *)

Lemma removeConnection_absent s i :
  JSMap.get i (connections s) = None -> removeConnection i s = (Normal false, s).
Proof.
  intros H. js_unfold. rewrite (JSMapFacts.delete_absent _ _ H). simpl.
  now rewrite sys_eta.
Qed.

Lemma disconnect_absent s i :
  JSMap.get i (connections s) = None -> disconnect i s = (Normal false, s).
Proof. intros H. js_unfold. now rewrite H. Qed.

Lemma removeConnection_spec s i :
  removeConnection i s
  = (Normal (JSMap.has i (connections s)),
     mkSys (snd (JSMap.delete i (connections s))) (world s) (calls s) (console s)).
Proof. reflexivity. Qed.

(** After a removal the id is gone, so a second removal finds nothing. *)
Lemma removeConnection_twice s i :
  exists (b : bool) s1,
    removeConnection i s = (Normal b, s1) /\
    removeConnection i s1 = (Normal false, s1).
Proof.
  rewrite removeConnection_spec. eexists. eexists. split; [reflexivity|].
  apply removeConnection_absent. simpl.
  apply (JSMapFacts.get_delete_same (connections s) i).
Qed.

(** What one operation does to the registry: it registers the id it drew,
    or deletes a key that was present and reports one removal, or leaves the
    registry as it is and reports none. *)
Lemma step_registry (op : Op Meta) s :
  exists (a : Tally) s1,
    step op s = (Normal a, s1) /\
    length (added a) = count_adds [op] /\
    ((exists u c, a = mkTally [u] 0 /\ id c = u /\
                  connections s1 = JSMap.set u c (connections s)) \/
     (exists i c, a = mkTally [] 1 /\
                  JSMap.get i (connections s) = Some c /\
                  connections s1 = snd (JSMap.delete i (connections s))) \/
     (a = mkTally [] 0 /\ connections s1 = connections s)).
Proof.
  destruct op as [w md | i | i]; unfold step.
  - js_unfold. destruct (randomUUID (world s)) as [u wd]. simpl.
    eexists. eexists. split; [reflexivity|]. split; [reflexivity|].
    left. exists u, (mkConnection w u md). repeat split.
  - unfold bind at 1. rewrite removeConnection_spec. unfold ret, JSMap.has.
    destruct (JSMap.get i (connections s)) as [c|] eqn:Hget.
    + eexists. eexists. split; [reflexivity|]. split; [reflexivity|].
      right. left. exists i, c. repeat split. exact Hget.
    + rewrite (JSMapFacts.delete_absent _ _ Hget). cbn [snd]. rewrite sys_eta.
      eexists. eexists. split; [reflexivity|]. split; [reflexivity|].
      right. right. split; reflexivity.
  - unfold bind at 1, disconnect, bind at 1, this_connections.
    destruct (JSMap.get i (connections s)) as [c|] eqn:Hget.
    + unfold try_catch, bind at 1, call_close.
      destruct (ws_close (ws c) (world s)) as [[[]|e] wd]; js_unfold; simpl.
      * eexists. eexists. split; [reflexivity|]. split; [reflexivity|].
        right. left. exists i, c. repeat split. exact Hget.
      * eexists. eexists. split; [reflexivity|]. split; [reflexivity|].
        right. right. split; reflexivity.
    + unfold ret. eexists. eexists. split; [reflexivity|]. split; [reflexivity|].
      right. right. split; reflexivity.
Qed.

Lemma count_adds_cons (op : Op Meta) ops :
  count_adds (op :: ops) = (count_adds [op] + count_adds ops)%nat.
Proof. unfold count_adds. simpl. now destruct op. Qed.

(** The accounting of a run from any well-formed registry: when the ids drawn
    are pairwise distinct and not registered at the start, every add counts
    one up and every removal that returned true counts one down. *)
Lemma run_accounting (ops : list (Op Meta)) :
  forall s, JSMap.wf (connections s) ->
  exists (tl : Tally) s',
    run ops s = (Normal tl, s') /\
    JSMap.wf (connections s') /\
    length (added tl) = count_adds ops /\
    (NoDup (added tl) ->
     (forall u, In u (added tl) -> JSMap.get u (connections s) = None) ->
     (JSMap.size (connections s') + removed tl
      = JSMap.size (connections s) + length (added tl))%nat).
Proof.
  induction ops as [|op ops IH]; intros s Hwf; simpl.
  - unfold ret. exists (mkTally [] 0), s. simpl. repeat split; auto.
  - destruct (step_registry op s) as (a & s1 & Hstep & Hlen & Heff).
    unfold bind at 1. rewrite Hstep.
    assert (Hwf1 : JSMap.wf (connections s1)).
    { destruct Heff as [(u & c & _ & _ & ->) | [(i & c & _ & _ & ->) | (_ & ->)]];
        auto using JSMapFacts.wf_set, JSMapFacts.wf_delete. }
    destruct (IH s1 Hwf1) as (b & s' & Hrun & Hwf' & Hlenb & Hacc).
    unfold bind, ret. rewrite Hrun.
    exists (tally_app a b), s'. split; [reflexivity|]. split; [exact Hwf'|].
    split.
    { simpl. rewrite length_app, count_adds_cons. congruence. }
    simpl. intros Hnd Hfresh.
    destruct Heff as [(u & c & -> & _ & Hc) | [(i & c & -> & Hget & Hc) | (-> & Hc)]];
      simpl in *.
    + inversion Hnd as [|? ? Hnin Hnd']; subst.
      assert (Hu : JSMap.get u (connections s) = None) by (apply Hfresh; now left).
      rewrite Hc in Hacc. rewrite JSMapFacts.set_fresh in Hacc by exact Hu.
      unfold JSMap.size in *. rewrite length_app in Hacc. simpl in Hacc.
      rewrite <- JSMapFacts.set_fresh in Hacc by exact Hu.
      assert (Hgoal := Hacc Hnd').
      enough (forall u0, In u0 (added b) ->
                JSMap.get u0 (JSMap.set u c (connections s)) = None) as Hfresh1.
      { rewrite (Hgoal Hfresh1). lia. }
      intros u0 Hin. rewrite JSMapFacts.get_set_other.
      * apply Hfresh. now right.
      * intros ->. contradiction.
    + pose proof (JSMapFacts.size_delete_present _ _ _ Hwf Hget) as Hsz.
      rewrite Hc in Hacc.
      enough (forall u0, In u0 (added b) ->
                JSMap.get u0 (snd (JSMap.delete i (connections s))) = None)
        as Hfresh1.
      { specialize (Hacc Hnd Hfresh1). unfold JSMap.size in *.
        rewrite <- Hsz. simpl. rewrite <- Hacc. lia. }
      intros u0 Hin. destruct (String.eqb_spec u0 i) as [-> | Hne].
      * apply JSMapFacts.get_delete_same.
      * rewrite JSMapFacts.get_delete_other by exact Hne. now apply Hfresh.
    + rewrite Hc in Hacc. apply Hacc; auto.
Qed.

(** Every record a run leaves in the registry sits under its own id, and no
    key is there twice (the invariant of the data model). *)
Lemma run_keyed_by_id (ops : list (Op Meta)) :
  forall s (tl : Tally) s',
    JSMap.wf (connections s) -> keyed_by_id (connections s) ->
    run ops s = (Normal tl, s') ->
    JSMap.wf (connections s') /\ keyed_by_id (connections s').
Proof.
  induction ops as [|op ops IH]; intros s tl s' Hwf Hkey; simpl.
  - unfold ret. intros [= _ <-]. now split.
  - destruct (step_registry op s) as (a & s1 & Hstep & _ & Heff).
    unfold bind at 1. rewrite Hstep. unfold bind, ret.
    destruct (run ops s1) as [[b|e] s2] eqn:Hrun; [|discriminate].
    intros [= _ <-]. apply (IH s1 b s2); auto.
    + destruct Heff as [(u & c & _ & _ & ->) | [(i & c & _ & _ & ->) | (_ & ->)]];
        auto using JSMapFacts.wf_set, JSMapFacts.wf_delete.
    + destruct Heff as [(u & c & _ & Hid & ->) | [(i & c & _ & _ & ->) | (_ & ->)]];
        auto.
      * intros k c' Hin. apply JSMapFacts.in_set in Hin.
        destruct Hin as [[= -> ->] | Hin]; [exact Hid | now apply Hkey].
      * intros k c' Hin. apply Hkey. eapply JSMapFacts.in_delete; eauto.
Qed.

(** C5. Run any sequence of addConnection, removeConnection and disconnect
    calls on a manager whose registry is empty.  Every call completes
    normally, and as many ids come back as the sequence has adds.  When the
    random source never gave the same id twice, size() afterwards is the
    number of adds minus the number of removals (removeConnection or
    disconnect) that returned true.  In the state reached, removing an id
    that is not registered returns false and changes nothing, and removing
    any id a second time returns false. *)
Theorem size_is_adds_minus_removals (ops : list (Op Meta)) s i :
  connections s = JSMap.empty ->
  exists (tl : Tally) s',
    run ops s = (Normal tl, s') /\
    length (added tl) = count_adds ops /\
    (NoDup (added tl) ->
     (removed tl <= length (added tl))%nat /\
     size s' = (Normal (length (added tl) - removed tl)%nat, s')) /\
    (JSMap.get i (connections s') = None ->
     removeConnection i s' = (Normal false, s') /\
     disconnect i s' = (Normal false, s')) /\
    (exists (b : bool) s1,
       removeConnection i s' = (Normal b, s1) /\
       removeConnection i s1 = (Normal false, s1)).
Proof.
  intros Hempty.
  assert (Hwf : JSMap.wf (connections s)) by (rewrite Hempty; constructor).
  destruct (run_accounting ops s Hwf) as (tl & s' & Hrun & _ & Hlen & Hacc).
  exists tl, s'. split; [exact Hrun|]. split; [exact Hlen|].
  split; [|split].
  - intros Hnd.
    assert (Hfresh : forall u, In u (added tl) ->
                       JSMap.get u (connections s) = None)
      by (intros u _; now rewrite Hempty).
    specialize (Hacc Hnd Hfresh). rewrite Hempty in Hacc. simpl in Hacc.
    unfold JSMap.size in Hacc. split; [lia|].
    js_unfold. unfold JSMap.size. do 2 f_equal. lia.
  - intros Habs. split;
      [now apply removeConnection_absent | now apply disconnect_absent].
  - apply removeConnection_twice.
Qed.

End ManagerFacts.

(** ** Scenarios on the test host *)

Lemma mock_send_keeps_readyState : send_keeps_readyState (RT := Mock.runtime).
Proof.
  intros w payload wd w'. simpl. unfold Mock.socket_send.
  destruct (Mock.send_throws wd w); reflexivity.
Defined.



(** C2, at the input where the code departs from the claim: an envelope with
    the caller's timestamp 0, sent and broadcast when the clock reads
    1700000000000, goes out with timestamp 1700000000000 and not 0. *)
Theorem timestamp_zero_is_restamped :
  let s0 := Mock.manager [Mock.conn 1 "a"; Mock.conn 2 "b"] (Mock.healthy 1700000000000) in
  let message := mkMessage "x" 1 (Some 0) in
  send "a" message s0
  = (Normal true,
     mkSys (connections s0) (Mock.tick (world s0))
           [CallSend 1 (Mock.frame 1700000000000)] []) /\
  calls (snd (broadcast message [] s0))
  = [CallSend 1 (Mock.frame 1700000000000); CallSend 2 (Mock.frame 1700000000000)] /\
  Mock.frame 1700000000000 <> Mock.frame 0.
Proof.
  cbv zeta. split; [reflexivity|]. split; [reflexivity|].
  vm_compute. discriminate.
Qed.

(** C3, on the test host: "d" is registered with a closed socket. *)
Lemma send_absent_or_not_open_witness :
  send "d" (mkMessage "x" 1 None) (Mock.manager Mock.registry (Mock.troubled 100))
  = (Normal false, Mock.manager Mock.registry (Mock.troubled 100)).
Proof.
  apply send_absent_or_not_open. right.
  exists (mkConnection 4 "d" None). split; [reflexivity|].
  simpl. lia.
Defined.

(** C4, on the test host: "a" is open and its send throws. *)
Lemma send_write_failure_witness :
  exists s',
    send "a" (mkMessage "x" 1 None) (Mock.manager Mock.registry (Mock.troubled 100))
    = (Normal false, s') /\
    connections s' = Mock.registry /\
    calls s' = [CallSend 1 (Mock.frame 100)].
Proof.
  destruct (send_write_failure (RT := Mock.runtime)
              (Mock.manager Mock.registry (Mock.troubled 100)) "a"
              (mkMessage "x" 1 None) (mkConnection 1 "a" None)
              (Mock.frame 100) "write EPIPE" (Mock.tick (Mock.troubled 100))
              eq_refl eq_refl eq_refl eq_refl)
    as (s' & Hrun & Hc & _ & _ & Hcalls & _).
  exists s'. split; [exact Hrun|]. split; [exact Hc | exact Hcalls].
Defined.

(** C5, on the test host: two adds, a removal, the same removal again, a
    disconnect and a disconnect of an unknown id leave nobody registered. *)
Lemma size_is_adds_minus_removals_witness :
  exists (tl : Tally) s',
    run [OpAdd 1 None; OpAdd 2 None; OpRemove "uuid-0"; OpRemove "uuid-0";
         OpDisconnect "uuid-1"; OpDisconnect "nobody"]
        (Mock.fresh (Mock.healthy 100)) = (Normal tl, s') /\
    added tl = ["uuid-0"; "uuid-1"] /\
    removed tl = 2%nat /\
    size s' = (Normal 0%nat, s').
Proof.
  destruct (size_is_adds_minus_removals (RT := Mock.runtime)
              [OpAdd 1 None; OpAdd 2 None; OpRemove "uuid-0"; OpRemove "uuid-0";
               OpDisconnect "uuid-1"; OpDisconnect "nobody"]
              (Mock.fresh (Mock.healthy 100)) "nobody" eq_refl)
    as (tl & s' & Hrun & _ & Hsize & _ & _).
  exists tl, s'.
  assert (Htl : tl = mkTally ["uuid-0"; "uuid-1"] 2).
  { vm_compute in Hrun. now injection Hrun as <- _. }
  subst tl. split; [exact Hrun|]. split; [reflexivity|]. split; [reflexivity|].
  apply Hsize. simpl.
  repeat constructor; simpl; intuition discriminate.
Defined.


(** C10, on the test host: the close of "b" throws. *)
Lemma disconnect_close_failure_witness :
  exists s',
    disconnect "b" (Mock.manager Mock.registry (Mock.troubled 100))
    = (Normal false, s') /\
    getConnection "b" s' = (Normal (Some (mkConnection 2 "b" None)), s') /\
    size s' = (Normal 4%nat, s').
Proof.
  destruct (disconnect_close_failure (RT := Mock.runtime)
              (Mock.manager Mock.registry (Mock.troubled 100)) "b"
              (mkConnection 2 "b" None) "close failed" (Mock.troubled 100)
              eq_refl eq_refl)
    as (s' & Hrun & _ & Hget & Hsize).
  exists s'. split; [exact Hrun|]. split; [exact Hget | exact Hsize].
Defined.

(** ** More on the manager: what each method leaves alone *)

Section ManagerFrames.

Context {World Data Meta : Type} {RT : Runtime World Data}.
Implicit Types (s : Sys World Meta) (message : WSMessage Data)
  (c : WSConnection Meta) (i j : string) (exclude : list string).

(** [send] on a registered, open socket: the frame is rendered, then
    written; what either throws ends on the console. *)
Lemma send_unfold s i message c :
  JSMap.get i (connections s) = Some c ->
  readyState (ws c) (world s) = 1 ->
  send i message s
  = match JSON_stringify
            (with_timestamp message (wire_timestamp message (world s))) with
    | Normal payload =>
        match ws_send (ws c) payload (world s) with
        | (Normal _, wd) =>
            (Normal true,
             mkSys (connections s) wd (calls s ++ [CallSend (ws c) payload])
                   (console s))
        | (Throw e, wd) =>
            (Normal false,
             mkSys (connections s) wd (calls s ++ [CallSend (ws c) payload])
                   (console s ++ [(("Failed to send message to " ++ i ++ ":")%string, e)]))
        end
    | Throw e =>
        (Normal false,
         mkSys (connections s) (world s) (calls s)
               (console s ++ [(("Failed to send message to " ++ i ++ ":")%string, e)]))
    end.
Proof.
  intros Hget Hopen.
  unfold send, bind at 1, this_connections. rewrite Hget.
  unfold bind at 1, get_readyState. rewrite Hopen. simpl.
  unfold try_catch, bind at 1. rewrite timestamp_or_now_spec.
  unfold bind at 1, call_JSON_stringify.
  destruct (JSON_stringify _) as [payload|e]; [|reflexivity].
  unfold bind, call_send.
  now destruct (ws_send (ws c) payload (world s)) as [[[]|e] wd].
Qed.

Lemma send_not_open s i message c :
  JSMap.get i (connections s) = Some c ->
  readyState (ws c) (world s) <> 1 ->
  send i message s = (Normal false, s).
Proof.
  intros Hget Hclosed. js_unfold. rewrite Hget.
  apply Z.eqb_neq in Hclosed. now rewrite Hclosed.
Qed.

(** The shape of every [send]: it completes normally, the registry is the
    same, and at most one call was made, a send of the rendered frame. *)
Lemma send_shape s i message :
  exists (b : bool) s' new,
    send i message s = (Normal b, s') /\
    connections s' = connections s /\
    calls s' = (calls s ++ new)%list /\
    (length new <= 1)%nat /\
    Forall (fun call =>
              exists c payload,
                JSMap.get i (connections s) = Some c /\
                JSON_stringify
                  (with_timestamp message (wire_timestamp message (world s)))
                = Normal payload /\
                call = CallSend (ws c) payload)
           new.
Proof.
  destruct (JSMap.get i (connections s)) as [c|] eqn:Hget.
  - destruct (Z.eq_dec (readyState (ws c) (world s)) 1) as [Hopen | Hclosed].
    + rewrite (send_unfold s i message c Hget Hopen).
      destruct (JSON_stringify _) as [payload|e] eqn:Hjson.
      * destruct (ws_send (ws c) payload (world s)) as [[[]|e] wd];
          eexists; eexists; exists [CallSend (ws c) payload];
          (split; [reflexivity|]); simpl; repeat split; auto;
          repeat constructor; eauto.
      * eexists. eexists. exists []. split; [reflexivity|]. simpl.
        rewrite app_nil_r. repeat split; auto.
    + rewrite (send_not_open s i message c Hget Hclosed).
      exists false, s, []. rewrite app_nil_r. repeat split; auto.
  - exists false, s, []. rewrite app_nil_r. repeat split; auto.
    js_unfold. now rewrite Hget.
Qed.

(** X1. send to a registered id whose socket is open, with a frame that
    JSON.stringify renders and a write that returns: the result is true,
    the one call made is the send of the rendered frame on that socket, and
    registry and console are as before. *)
Theorem send_delivers s i message c (payload : string) (wd : World) :
  JSMap.get i (connections s) = Some c ->
  readyState (ws c) (world s) = 1 ->
  JSON_stringify (with_timestamp message (wire_timestamp message (world s)))
  = Normal payload ->
  ws_send (ws c) payload (world s) = (Normal tt, wd) ->
  send i message s
  = (Normal true,
     mkSys (connections s) wd (calls s ++ [CallSend (ws c) payload]) (console s)).
Proof.
  intros Hget Hopen Hjson Hok.
  rewrite (send_unfold s i message c Hget Hopen), Hjson, Hok. reflexivity.
Qed.

(** X27. send to a registered id whose socket is open, with a frame that
    JSON.stringify refuses: the error is caught inside send, which returns
    false, logs the error and makes no call on any socket; the registry is
    as before. *)
Theorem send_serialization_failure s i message c (e : Error) :
  JSMap.get i (connections s) = Some c ->
  readyState (ws c) (world s) = 1 ->
  JSON_stringify (with_timestamp message (wire_timestamp message (world s)))
  = Throw e ->
  send i message s
  = (Normal false,
     mkSys (connections s) (world s) (calls s)
           (console s ++ [(("Failed to send message to " ++ i ++ ":")%string, e)])).
Proof.
  intros Hget Hopen Hjson.
  rewrite (send_unfold s i message c Hget Hopen), Hjson. reflexivity.
Qed.

(** X2. send never throws and never touches the registry, whatever the
    socket does; it makes at most one call, and only on the socket that is
    registered under the id it was given. *)
Theorem send_only_touches_its_socket s i message :
  exists (b : bool) s' new,
    send i message s = (Normal b, s') /\
    connections s' = connections s /\
    calls s' = (calls s ++ new)%list /\
    (length new <= 1)%nat /\
    Forall (fun call =>
              exists c payload,
                JSMap.get i (connections s) = Some c /\
                call = CallSend (ws c) payload)
           new.
Proof.
  destruct (send_shape s i message) as (b & s' & new & Hrun & Hc & Hcalls & Hlen & Hall).
  exists b, s', new. repeat split; auto.
  eapply Forall_impl; [|exact Hall].
  intros call (c & payload & Hget & _ & ->). eauto.
Qed.

Lemma with_timestamp_same message (n : Z) :
  timestamp message = Some n -> with_timestamp message n = message.
Proof. destruct message as [ty d t]. simpl. now intros ->. Qed.

(** The shape of every [broadcast]: it completes normally, the registry is
    the same, and every call is a send of the one frame on the socket of an
    entry of the registry whose key is not excluded. *)
Lemma broadcast_loop_members (payload : string) exclude
    (m : JSMap.t (WSConnection Meta)) :
  forall s, exists s' new,
    forEach m (broadcast_to payload exclude) s = (Normal tt, s') /\
    connections s' = connections s /\
    calls s' = (calls s ++ new)%list /\
    (length new <= length m)%nat /\
    Forall (fun call =>
              exists k c, In (k, c) m /\ includes exclude k = false /\
                          call = CallSend (ws c) payload)
           new.
Proof.
  induction m as [|[k c] m IH]; intros s; simpl.
  - exists s, []. unfold ret. rewrite app_nil_r. repeat split; auto.
  - unfold bind at 1. rewrite broadcast_to_spec.
    destruct (recipient exclude (world s) (k, c)) eqn:Hrec.
    + match goal with |- context [forEach m _ ?s1] =>
        destruct (IH s1) as (s' & new & Hrun & Hc & Hcalls & Hlen & Hall) end.
      simpl in Hc, Hcalls.
      exists s', (CallSend (ws c) payload :: new).
      rewrite Hrun, Hc, Hcalls, <- app_assoc. simpl.
      repeat split; [lia|].
      constructor.
      * exists k, c. unfold recipient in Hrec. simpl in Hrec.
        apply andb_prop in Hrec. destruct Hrec as [Hex _].
        apply negb_true_iff in Hex. auto.
      * eapply Forall_impl; [|exact Hall].
        intros call (k' & c' & Hin & Hex & ->). exists k', c'. auto.
    + destruct (IH s) as (s' & new & Hrun & Hc & Hcalls & Hlen & Hall).
      exists s', new. rewrite Hrun. repeat split; auto.
      eapply Forall_impl; [|exact Hall].
      intros call (k' & c' & Hin & Hex & ->). exists k', c'. auto.
Qed.

Lemma includes_false exclude i : includes exclude i = false <-> ~ In i exclude.
Proof.
  unfold includes. split.
  - intros H Hin. apply Bool.not_true_iff_false in H. apply H.
    apply existsb_exists. exists i. split; auto. apply String.eqb_refl.
  - intros H. apply Bool.not_true_iff_false. intros Hex.
    apply existsb_exists in Hex. destruct Hex as (x & Hin & Heq).
    apply String.eqb_eq in Heq. now subst.
Qed.


(** X4. An envelope that carries an integer timestamp other than 0 goes out
    as it is: every call that send or broadcast makes for it is a send of
    what JSON.stringify renders for the envelope itself, timestamp
    included. *)
Theorem supplied_timestamp_goes_out_unchanged s i message exclude (n : Z) :
  timestamp message = Some n -> n <> 0 ->
  (exists (b : bool) s' new,
     send i message s = (Normal b, s') /\
     calls s' = (calls s ++ new)%list /\
     Forall (fun call =>
               exists w payload,
                 JSON_stringify message = Normal payload /\
                 call = CallSend w payload) new) /\
  (exists (r : Completion unit) s' new,
     broadcast message exclude s = (r, s') /\
     calls s' = (calls s ++ new)%list /\
     Forall (fun call =>
               exists w payload,
                 JSON_stringify message = Normal payload /\
                 call = CallSend w payload) new).
Proof.
  intros Hts Hn.
  assert (Hframe : with_timestamp message (wire_timestamp message (world s)) = message).
  { rewrite (wire_timestamp_supplied message (world s) n Hts Hn).
    now apply with_timestamp_same. }
  split.
  - destruct (send_shape s i message) as (b & s' & new & Hrun & _ & Hcalls & _ & Hall).
    exists b, s', new. repeat split; auto.
    eapply Forall_impl; [|exact Hall].
    intros call (c & payload & _ & Hjson & ->). rewrite Hframe in Hjson. eauto.
  - rewrite broadcast_unfold, Hframe.
    destruct (JSON_stringify message) as [payload|e].
    + destruct (broadcast_loop_payload payload exclude (connections s) s)
        as (s' & new & Hrun & _ & Hcalls & Hall).
      exists (Normal tt), s', new. rewrite Hrun. repeat split; auto.
      eapply Forall_impl; [|exact Hall].
      intros call (w & ->). eauto.
    + exists (Throw e), s, []. rewrite app_nil_r. repeat split; auto.
Qed.

(** X5. removeConnection returns whether the id was registered, forgets the
    id and nothing else, and does not call the socket: no close is made and
    the host, the calls and the console are as before.  On a well-formed
    registry the size goes down by one exactly when the result is true. *)
Theorem removeConnection_forgets_only_that_id s i :
  JSMap.wf (connections s) ->
  exists s',
    removeConnection i s = (Normal (JSMap.has i (connections s)), s') /\
    world s' = world s /\ calls s' = calls s /\ console s' = console s /\
    JSMap.get i (connections s') = None /\
    (forall j, j <> i ->
       JSMap.get j (connections s') = JSMap.get j (connections s)) /\
    (JSMap.size (connections s') + (if JSMap.has i (connections s) then 1 else 0)
     = JSMap.size (connections s))%nat.
Proof.
  intros Hwf. rewrite removeConnection_spec. eexists. split; [reflexivity|].
  simpl. repeat split.
  - apply (JSMapFacts.get_delete_same (connections s) i).
  - intros j Hj. now apply (JSMapFacts.get_delete_other (connections s) i j).
  - unfold JSMap.has.
    destruct (JSMap.get i (connections s)) as [c|] eqn:Hget.
    + pose proof (JSMapFacts.size_delete_present _ _ _ Hwf Hget) as Hsz.
      simpl in Hsz. rewrite <- Hsz. lia.
    + pose proof (JSMapFacts.delete_absent _ _ Hget) as Hd.
      unfold JSMap.delete in Hd. injection Hd as _ Hd. rewrite Hd. lia.
Qed.

(** X6. addConnection makes no call on any socket and changes no other
    entry; when the id drawn is not yet registered, the new record is
    appended, so it is the last that broadcast and clear reach, and size
    grows by one. *)
Theorem addConnection_appends s (w : WebSocket) (md : option Meta) :
  exists c s',
    addConnection w md s = (Normal c, s') /\
    calls s' = calls s /\ console s' = console s /\
    (forall j, j <> id c ->
       JSMap.get j (connections s') = JSMap.get j (connections s)) /\
    (JSMap.get (id c) (connections s) = None ->
     connections s' = (connections s ++ [(id c, c)])%list /\
     JSMap.size (connections s') = S (JSMap.size (connections s))).
Proof.
  js_unfold. destruct (randomUUID (world s)) as [u wd]. simpl.
  eexists. eexists. split; [reflexivity|]. simpl. repeat split.
  - intros j Hj. now apply JSMapFacts.get_set_other.
  - now apply JSMapFacts.set_fresh.
  - rewrite JSMapFacts.set_fresh by assumption.
    unfold JSMap.size. rewrite length_app. simpl. lia.
Qed.

(** X7. When the socket's close returns, disconnect is that close followed
    by removeConnection: same result, same final state. *)
Theorem disconnect_is_close_then_removeConnection s i c (wd : World) :
  JSMap.get i (connections s) = Some c ->
  ws_close (ws c) (world s) = (Normal tt, wd) ->
  disconnect i s
  = removeConnection i
      (mkSys (connections s) wd (calls s ++ [CallClose (ws c)]) (console s)) /\
  fst (disconnect i s) = Normal true.
Proof.
  intros Hget Hok.
  assert (Heq : disconnect i s
                = removeConnection i
                    (mkSys (connections s) wd (calls s ++ [CallClose (ws c)])
                           (console s))).
  { unfold disconnect, bind at 1, this_connections. rewrite Hget.
    unfold try_catch, bind at 1, call_close. rewrite Hok.
    rewrite removeConnection_spec. js_unfold. simpl.
    unfold JSMap.has. now rewrite Hget. }
  split; [exact Heq|].
  rewrite Heq, removeConnection_spec. simpl.
  unfold JSMap.has. now rewrite Hget.
Qed.

(** X8. disconnect, whatever it returns, leaves every other id as it was. *)
Theorem disconnect_keeps_other_ids s i j :
  j <> i ->
  exists (b : bool) s',
    disconnect i s = (Normal b, s') /\
    JSMap.get j (connections s') = JSMap.get j (connections s).
Proof.
  intros Hj.
  unfold disconnect, bind at 1, this_connections.
  destruct (JSMap.get i (connections s)) as [c|] eqn:Hget.
  - unfold try_catch, bind at 1, call_close.
    destruct (ws_close (ws c) (world s)) as [[[]|e] wd]; js_unfold; simpl;
      eexists; eexists; (split; [reflexivity|]); simpl; auto.
    now apply (JSMapFacts.get_delete_other (connections s) i j).
  - unfold ret. eauto.
Qed.

(** X9. After clear the manager is as good as new: send and disconnect
    return false for every id, removeConnection finds nothing, and
    broadcast and a second clear make no call and change nothing (broadcast
    still throws when JSON.stringify refuses the frame, and otherwise
    completes normally). *)
Theorem after_clear_nothing_is_reachable s i message exclude :
  exists s',
    clear s = (Normal tt, s') /\
    send i message s' = (Normal false, s') /\
    disconnect i s' = (Normal false, s') /\
    removeConnection i s' = (Normal false, s') /\
    broadcast message exclude s'
    = (match JSON_stringify
               (with_timestamp message (wire_timestamp message (world s'))) with
       | Normal _ => Normal tt
       | Throw e => Throw e
       end, s') /\
    clear s' = (Normal tt, s').
Proof.
  destruct (clear_loop (connections s) s) as (s1 & Hrun & _).
  assert (Hclear : clear s
                   = (Normal tt, mkSys JSMap.empty (world s1) (calls s1) (console s1))).
  { unfold clear, bind at 1, this_connections. unfold bind. now rewrite Hrun. }
  eexists. split; [exact Hclear|].
  split; [reflexivity|]. split; [reflexivity|]. split; [reflexivity|].
  split; [|reflexivity].
  rewrite broadcast_unfold. cbn [connections world].
  now destruct (JSON_stringify _).
Qed.

(** X10. Whatever sequence of addConnection, removeConnection and disconnect
    calls is run on an empty registry, and whatever ids the random source
    gives, every call completes normally, no id is registered twice, and
    every record is registered under its own id: getConnection(i) never
    returns a record whose id is not i. *)
Theorem reachable_registry_is_keyed_by_id (ops : list (Op Meta)) s i c :
  connections s = JSMap.empty ->
  exists (tl : Tally) s',
    run ops s = (Normal tl, s') /\
    JSMap.wf (connections s') /\
    (getConnection i s' = (Normal (Some c), s') -> id c = i).
Proof.
  intros Hempty.
  assert (Hwf : JSMap.wf (connections s)) by (rewrite Hempty; constructor).
  assert (Hkey : keyed_by_id (connections s))
    by (rewrite Hempty; intros k c' []).
  destruct (run_accounting ops s Hwf) as (tl & s' & Hrun & _).
  destruct (run_keyed_by_id ops s tl s' Hwf Hkey Hrun) as [Hwf' Hkey'].
  exists tl, s'. repeat split; auto.
  js_unfold. intros [= Hget]. apply Hkey'.
  now apply JSMapFacts.get_some_in.
Qed.

End ManagerFrames.

(** ** Sets and a few more facts on maps *)
Module JSSetFacts.

Lemma has_app x (s s' : JSSet.t) :
  JSSet.has x (s ++ s')%list = JSSet.has x s || JSSet.has x s'.
Proof. unfold JSSet.has. apply existsb_app. Qed.

Lemma has_in x (s : JSSet.t) : JSSet.has x s = true <-> In x s.
Proof.
  unfold JSSet.has. rewrite existsb_exists. split.
  - intros (y & Hin & Heq). apply String.eqb_eq in Heq. now subst.
  - intros Hin. exists x. split; auto. apply String.eqb_refl.
Qed.

Lemma has_add y x (s : JSSet.t) :
  JSSet.has y (JSSet.add x s) = String.eqb y x || JSSet.has y s.
Proof.
  unfold JSSet.add. destruct (JSSet.has x s) eqn:Hx.
  - destruct (String.eqb_spec y x) as [-> | Hne]; simpl; auto.
  - rewrite has_app. simpl. unfold JSSet.has at 2. simpl.
    rewrite orb_false_r. apply orb_comm.
Qed.

Lemma has_delete y x (s : JSSet.t) :
  JSSet.has y (JSSet.delete x s) = negb (String.eqb y x) && JSSet.has y s.
Proof.
  unfold JSSet.delete, JSSet.has.
  induction s as [|z s IH]; simpl.
  - now rewrite andb_false_r.
  - destruct (String.eqb_spec x z) as [-> | Hxz]; simpl.
    + rewrite IH. destruct (String.eqb y z); simpl; auto.
    + rewrite IH. destruct (String.eqb_spec y z) as [-> | Hyz]; simpl.
      * apply not_eq_sym in Hxz. apply String.eqb_neq in Hxz. now rewrite Hxz.
      * reflexivity.
Qed.

Lemma delete_not_member x (s : JSSet.t) :
  JSSet.has x s = false -> JSSet.delete x s = s.
Proof.
  unfold JSSet.delete, JSSet.has.
  induction s as [|z s IH]; simpl; auto.
  intros H. apply orb_false_iff in H. destruct H as [Hz Hs].
  rewrite Hz. simpl. now rewrite IH.
Qed.

Lemma delete_added x (s : JSSet.t) :
  JSSet.has x s = false -> JSSet.delete x (s ++ [x])%list = s.
Proof.
  intros H. unfold JSSet.delete. rewrite filter_app. simpl.
  rewrite String.eqb_refl. simpl. rewrite app_nil_r. now apply delete_not_member.
Qed.

Lemma NoDup_add x (s : JSSet.t) : NoDup s -> NoDup (JSSet.add x s).
Proof.
  intros H. unfold JSSet.add. destruct (JSSet.has x s) eqn:Hx; auto.
  apply NoDup_app; auto.
  - repeat constructor. simpl. tauto.
  - intros y Hy [<- | []]. apply has_in in Hy. congruence.
Qed.

Lemma NoDup_delete x (s : JSSet.t) : NoDup s -> NoDup (JSSet.delete x s).
Proof. apply NoDup_filter. Qed.

Lemma add_not_empty x (s : JSSet.t) : JSSet.add x s <> [].
Proof.
  unfold JSSet.add. destruct (JSSet.has x s) eqn:Hx.
  - intros ->. discriminate.
  - destruct s; discriminate.
Qed.

End JSSetFacts.

Module JSMapMore.
Import JSMap.

Section Facts.

Context {V : Type}.
Implicit Types (m : JSMap.t V) (k : string) (v : V).

Lemma set_get_same m k v : get k m = Some v -> set k v m = m.
Proof.
  induction m as [|[k' v'] m IH]; simpl; [discriminate|].
  destruct (String.eqb_spec k k') as [-> | Hne].
  - now intros [= ->].
  - intros H. now rewrite IH.
Qed.

Lemma set_set m k v v' : set k v (set k v' m) = set k v m.
Proof.
  induction m as [|[k0 v0] m IH]; simpl.
  - now rewrite String.eqb_refl.
  - destruct (String.eqb k k0) eqn:E; simpl.
    + now rewrite String.eqb_refl.
    + now rewrite E, IH.
Qed.

Lemma delete_set_fresh m k v : get k m = None -> snd (delete k (set k v m)) = m.
Proof.
  intros H. rewrite JSMapFacts.set_fresh by exact H.
  unfold delete. simpl. rewrite filter_app. simpl.
  rewrite String.eqb_refl. simpl. rewrite app_nil_r.
  pose proof (JSMapFacts.delete_absent m k H) as Hd.
  unfold delete in Hd. now injection Hd.
Qed.

(** In a well-formed map an entry is what [get] finds under its key. *)
Lemma get_of_entry m k v : wf m -> In (k, v) m -> get k m = Some v.
Proof.
  unfold wf, keys. induction m as [|[k' v'] m IH]; simpl; [tauto|].
  intros Hnd [[= -> ->] | Hin].
  - now rewrite String.eqb_refl.
  - inversion Hnd as [|? ? Hnin Hnd']; subst.
    destruct (String.eqb_spec k k') as [-> | Hne]; auto.
    exfalso. apply Hnin. apply in_map_iff. exists (k', v). auto.
Qed.

(** In a well-formed map, deleting the key of an entry takes out that entry
    and keeps the others in their order. *)
Lemma delete_middle (pre post : JSMap.t V) k v :
  wf (pre ++ (k, v) :: post)%list ->
  snd (delete k (pre ++ (k, v) :: post)%list) = (pre ++ post)%list.
Proof.
  unfold wf, keys, delete. simpl. rewrite map_app. simpl.
  intros Hnd. apply NoDup_remove_2 in Hnd.
  rewrite filter_app. simpl. rewrite String.eqb_refl. simpl.
  assert (Hkeep : forall l : JSMap.t V,
            ~ In k (map fst l) ->
            filter (fun kv => negb (String.eqb k (fst kv))) l = l).
  { induction l as [|[k0 v0] l IHl]; simpl; auto.
    intros Hn. destruct (String.eqb_spec k k0) as [-> | Hne]; [tauto|].
    simpl. rewrite IHl; tauto. }
  rewrite !Hkeep; auto; intros Hin; apply Hnd; apply in_or_app; auto.
Qed.

End Facts.
End JSMapMore.

(** ** The chat example's rooms *)
Module ChatFacts.
Import Chat.

Lemma joinRoom_result (u r : string) (rooms : Rooms) :
  joinRoom u r rooms
  = (Normal tt,
     JSMap.set r (JSSet.add u match JSMap.get r rooms with
                              | Some room => room
                              | None => []
                              end) rooms).
Proof.
  unfold joinRoom, JSMap.has, Rooms, JSSet.t in *.
  destruct (JSMap.get r rooms) as [room|] eqn:Hget; cbn [negb].
  - now rewrite Hget.
  - rewrite JSMapFacts.get_set_same. now rewrite JSMapMore.set_set.
Qed.

(** X11. joinRoom never throws (the room it dereferences is always there),
    puts the user in the room, and changes nobody else's membership of any
    room. *)
Theorem joinRoom_membership (u r : string) (rooms : Rooms) :
  exists rooms',
    joinRoom u r rooms = (Normal tt, rooms') /\
    forall u' r',
      is_member u' r' rooms'
      = (String.eqb u' u && String.eqb r' r) || is_member u' r' rooms.
Proof.
  rewrite joinRoom_result. eexists. split; [reflexivity|].
  intros u' r'. unfold is_member.
  destruct (String.eqb_spec r' r) as [-> | Hne].
  - rewrite JSMapFacts.get_set_same, JSSetFacts.has_add, andb_true_r.
    destruct (JSMap.get r rooms); reflexivity.
  - rewrite JSMapFacts.get_set_other by exact Hne.
    now rewrite andb_false_r.
Qed.

(** X12. leaveRoom takes the user out of the room and changes nobody else's
    membership of any room; leaving a room that does not exist changes
    nothing. *)
Theorem leaveRoom_membership (u r : string) (rooms : Rooms) :
  (forall u' r',
     is_member u' r' (leaveRoom u r rooms)
     = negb (String.eqb u' u && String.eqb r' r) && is_member u' r' rooms) /\
  (JSMap.get r rooms = None -> leaveRoom u r rooms = rooms).
Proof.
  split.
  - intros u' r'. unfold leaveRoom, is_member.
    destruct (JSMap.get r rooms) as [room|] eqn:Hget.
    + destruct (Nat.eqb (JSSet.size (JSSet.delete u room)) 0) eqn:Hsz.
      * apply Nat.eqb_eq in Hsz. apply length_zero_iff_nil in Hsz.
        destruct (String.eqb_spec r' r) as [-> | Hne].
        -- rewrite (JSMapFacts.get_delete_same rooms r), Hget, andb_true_r.
           pose proof (JSSetFacts.has_delete u' u room) as Hd.
           rewrite Hsz in Hd. simpl in Hd. exact Hd.
        -- rewrite (JSMapFacts.get_delete_other rooms r r') by exact Hne.
           now rewrite andb_false_r.
      * destruct (String.eqb_spec r' r) as [-> | Hne].
        -- rewrite JSMapFacts.get_set_same, Hget, andb_true_r.
           apply JSSetFacts.has_delete.
        -- rewrite JSMapFacts.get_set_other by exact Hne.
           now rewrite andb_false_r.
    + destruct (String.eqb_spec r' r) as [-> | Hne].
      * rewrite Hget. now rewrite andb_false_r.
      * now rewrite andb_false_r.
  - intros Hget. unfold leaveRoom. now rewrite Hget.
Qed.

Lemma joinRoom_ok (u r : string) (rooms : Rooms) :
  rooms_ok rooms -> rooms_ok (snd (joinRoom u r rooms)).
Proof.
  intros [Hwf Hall]. rewrite joinRoom_result. simpl. split.
  - now apply JSMapFacts.wf_set.
  - intros r' room' Hin. apply JSMapFacts.in_set in Hin.
    destruct Hin as [[= -> ->] | Hin]; [|exact (Hall _ _ Hin)].
    split; [apply JSSetFacts.add_not_empty|].
    apply JSSetFacts.NoDup_add.
    destruct (JSMap.get r rooms) as [room|] eqn:Hget; [|constructor].
    apply JSMapFacts.get_some_in in Hget. exact (proj2 (Hall _ _ Hget)).
Qed.

Lemma leaveRoom_ok (u r : string) (rooms : Rooms) :
  rooms_ok rooms -> rooms_ok (leaveRoom u r rooms).
Proof.
  intros [Hwf Hall]. unfold leaveRoom.
  destruct (JSMap.get r rooms) as [room|] eqn:Hget; [|now split].
  destruct (Nat.eqb (JSSet.size (JSSet.delete u room)) 0) eqn:Hsz.
  - split; [now apply JSMapFacts.wf_delete|].
    intros r' room' Hin. apply JSMapFacts.in_delete in Hin. exact (Hall _ _ Hin).
  - split; [now apply JSMapFacts.wf_set|].
    intros r' room' Hin. apply JSMapFacts.in_set in Hin.
    destruct Hin as [[= -> ->] | Hin]; [|exact (Hall _ _ Hin)].
    split.
    + intros Hnil. rewrite Hnil in Hsz. discriminate.
    + apply JSSetFacts.NoDup_delete.
      apply JSMapFacts.get_some_in in Hget. exact (proj2 (Hall _ _ Hget)).
Qed.

(** X13. Whatever sequence of joinRoom and leaveRoom calls is run on the
    empty map, no call throws, and afterwards no room is registered twice,
    no room is empty (a room is dropped when its last member leaves) and
    nobody is in a room twice. *)
Theorem rooms_stay_ok (ops : list RoomOp) :
  exists rooms',
    run_rooms ops JSMap.empty = (Normal tt, rooms') /\ rooms_ok rooms'.
Proof.
  assert (Hgen : forall rooms, rooms_ok rooms ->
            exists rooms', run_rooms ops rooms = (Normal tt, rooms') /\
                           rooms_ok rooms').
  { induction ops as [|[u r | u r] ops IH]; intros rooms Hok; simpl.
    - eauto.
    - pose proof (joinRoom_ok u r rooms Hok) as Hok'.
      rewrite joinRoom_result in *. simpl in Hok'. now apply IH.
    - apply IH. now apply leaveRoom_ok. }
  apply Hgen. split; [constructor|]. intros r room [].
Qed.

(** X14. Joining a room one is not in and leaving it again gives back the
    map of rooms as it was, the room included when it was only created for
    the join. *)
Theorem join_then_leave (u r : string) (rooms : Rooms) :
  rooms_ok rooms ->
  is_member u r rooms = false ->
  exists rooms1,
    joinRoom u r rooms = (Normal tt, rooms1) /\
    is_member u r rooms1 = true /\
    leaveRoom u r rooms1 = rooms.
Proof.
  intros [Hwf Hall] Hmem. rewrite joinRoom_result. eexists.
  split; [reflexivity|]. unfold is_member in *.
  rewrite JSMapFacts.get_set_same. split.
  { rewrite JSSetFacts.has_add, String.eqb_refl. reflexivity. }
  unfold leaveRoom. rewrite JSMapFacts.get_set_same.
  destruct (JSMap.get r rooms) as [room|] eqn:Hget.
  - unfold JSSet.add. rewrite Hmem.
    rewrite JSSetFacts.delete_added by exact Hmem.
    pose proof (JSMapFacts.get_some_in _ _ _ Hget) as Hin.
    destruct (Hall _ _ Hin) as [Hne _].
    destruct room as [|x room]; [congruence|]. simpl.
    rewrite JSMapMore.set_set. now apply JSMapMore.set_get_same.
  - simpl. rewrite String.eqb_refl. simpl.
    now apply JSMapMore.delete_set_fresh.
Qed.

Section WithManager.

Context {World Data Meta : Type} {RT : Runtime World Data}.
Implicit Types (s : Sys World Meta) (message : WSMessage Data).

Lemma send_unregistered s (i : string) message :
  JSMap.get i (connections s) = None -> send i message s = (Normal false, s).
Proof. intros H. js_unfold. now rewrite H. Qed.

(** X15. The example's broadcastToRoom hands each room member's user id to
    manager.send as a connection id.  When no member's user id is the id of
    a registered connection, it writes to nobody and changes nothing; so
    does it for a room that does not exist. *)
Theorem broadcastToRoom_needs_user_ids_as_connection_ids
    s (rooms : Rooms) (r : string) message (exclude : option (list string)) :
  (forall u, is_member u r rooms = true -> JSMap.get u (connections s) = None) ->
  broadcastToRoom rooms r message exclude s = (Normal tt, s).
Proof.
  unfold broadcastToRoom, is_member.
  destruct (JSMap.get r rooms) as [room|]; [|reflexivity].
  intros Hnone.
  assert (Hall : forall u, In u room -> JSMap.get u (connections s) = None)
    by (intros u Hin; apply Hnone; now apply JSSetFacts.has_in).
  clear Hnone. induction room as [|u room IH]; simpl; [reflexivity|].
  unfold bind at 1.
  destruct (not_excluded exclude u).
  - unfold bind at 1. rewrite send_unregistered by (apply Hall; now left).
    unfold ret at 1. apply IH. intros u' Hin. apply Hall. now right.
  - unfold ret at 1. apply IH. intros u' Hin. apply Hall. now right.
Qed.

End WithManager.

End ChatFacts.

(** ** The example's helper *)
Module HelperFacts.

Section WithManager.

Context {World Data : Type} {RT : Runtime World Data}.
Implicit Types (s : Sys World Helper.UserMeta) (c : WSConnection Helper.UserMeta)
  (m pre post : JSMap.t (WSConnection Helper.UserMeta)) (u k ty : string) (d : Data).

Lemma is_user_iff c u : Helper.is_user c u = true <-> Helper.metadata_userId c = Some u.
Proof.
  unfold Helper.is_user. destruct (Helper.metadata_userId c) as [v|].
  - rewrite String.eqb_eq. split; congruence.
  - split; discriminate.
Qed.

Lemma isUserOnline_loop_iff m u :
  Helper.isUserOnline_loop m u = true <->
  exists k c, In (k, c) m /\ Helper.metadata_userId c = Some u.
Proof.
  induction m as [|[k c] m IH]; simpl.
  - split; [discriminate | intros (k & c & [] & _)].
  - destruct (Helper.is_user c u) eqn:Hu.
    + split; auto. intros _. exists k, c. split; auto. now apply is_user_iff.
    + rewrite IH. split.
      * intros (k' & c' & Hin & Hmd). eauto.
      * intros (k' & c' & [[= <- <-] | Hin] & Hmd); eauto.
        apply is_user_iff in Hmd. congruence.
Qed.

(** X16. isUserOnline(u) reads the registry and changes nothing; it is true
    exactly when some registered connection has metadata.userId equal to u,
    whatever the state of that connection's socket. *)
Theorem isUserOnline_iff_registered s u :
  exists b : bool,
    Helper.isUserOnline u s = (Normal b, s) /\
    (b = true <->
     exists k c, In (k, c) (connections s) /\ Helper.metadata_userId c = Some u).
Proof.
  eexists. split; [reflexivity|]. apply isUserOnline_loop_iff.
Qed.

Lemma loops_skip_strangers pre k c post u ty d :
  Helper.isUserOnline_loop pre u = false -> Helper.is_user c u = true ->
  Helper.sendToUser_loop (pre ++ (k, c) :: post)%list u ty d
  = bind call_Date_now (fun now => send k (mkMessage ty d (Some now))) /\
  Helper.disconnectUser_loop (World := World) (pre ++ (k, c) :: post)%list u
  = disconnect k.
Proof.
  intros Hpre Hc. induction pre as [|[k0 c0] pre IH]; simpl in *.
  - now rewrite Hc.
  - destruct (Helper.is_user c0 u); [discriminate|]. now apply IH.
Qed.

Lemma loops_find_nobody m u ty d s :
  Helper.isUserOnline_loop m u = false ->
  Helper.sendToUser_loop m u ty d s
  = (Normal false,
     mkSys (connections s) (world s) (calls s)
           (console s ++ [(("[WS Helper] User " ++ u
                            ++ " not found or not connected")%string, ""%string)])) /\
  Helper.disconnectUser_loop m u s = (Normal false, s).
Proof.
  induction m as [|[k c] m IH]; simpl.
  - split; reflexivity.
  - destruct (Helper.is_user c u); [discriminate|]. exact IH.
Qed.

(** X17. For a user who is not online, sendToUser warns and returns false
    without a call on any socket, and disconnectUser returns false and
    changes nothing. *)
Theorem unknown_user_is_not_reached s u ty d :
  Helper.isUserOnline u s = (Normal false, s) ->
  Helper.sendToUser u ty d s
  = (Normal false,
     mkSys (connections s) (world s) (calls s)
           (console s ++ [(("[WS Helper] User " ++ u
                            ++ " not found or not connected")%string, ""%string)])) /\
  Helper.disconnectUser u s = (Normal false, s).
Proof.
  unfold Helper.isUserOnline, Helper.sendToUser, Helper.disconnectUser, getConnections.
  unfold bind at 1 2 3, this_connections, ret at 1.
  intros [= Hoff]. now apply loops_find_nobody.
Qed.

(** X18. sendToUser and disconnectUser act on the first connection of the
    user in registration order and on no other: they are sendToConnection
    and manager.disconnect on that connection's id. *)
Theorem user_is_reached_on_first_connection s pre k c post u ty d :
  connections s = (pre ++ (k, c) :: post)%list ->
  Helper.isUserOnline_loop pre u = false ->
  Helper.is_user c u = true ->
  Helper.sendToUser u ty d s = Helper.sendToConnection k ty d s /\
  Helper.disconnectUser u s = disconnect k s.
Proof.
  intros Hm Hpre Hc.
  destruct (loops_skip_strangers pre k c post u ty d Hpre Hc) as [Hs Hd].
  unfold Helper.sendToUser, Helper.disconnectUser, Helper.sendToConnection, getConnections.
  unfold bind at 1 3, this_connections. rewrite Hm, Hs, Hd. split; reflexivity.
Qed.

(** X19. When the first connection of a user is not open, sendToUser
    returns false and writes to nobody, even if the user has a later
    connection that is open. *)
Theorem sendToUser_gives_up_on_closed_first_connection
    s pre k c post u ty d :
  JSMap.wf (connections s) ->
  connections s = (pre ++ (k, c) :: post)%list ->
  Helper.isUserOnline_loop pre u = false ->
  Helper.is_user c u = true ->
  readyState (ws c) (world s) <> 1 ->
  Helper.sendToUser u ty d s = (Normal false, s).
Proof.
  intros Hwf Hm Hpre Hc Hclosed.
  destruct (loops_skip_strangers pre k c post u ty d Hpre Hc) as [Hs _].
  unfold Helper.sendToUser, getConnections. unfold bind at 1, this_connections.
  rewrite Hm, Hs.
  assert (Hget : JSMap.get k (connections s) = Some c).
  { apply JSMapMore.get_of_entry; auto. rewrite Hm. apply in_or_app. right. now left. }
  js_unfold. rewrite Hget. apply Z.eqb_neq in Hclosed. now rewrite Hclosed.
Qed.

(** An envelope that the helper stamped with a reading other than 0 is the
    frame: the manager keeps the stamp. *)
Lemma stamped_frame ty d (n : Z) (wd : World) :
  n <> 0 ->
  with_timestamp (mkMessage ty d (Some n))
                 (wire_timestamp (mkMessage ty d (Some n)) wd)
  = mkMessage ty d (Some n).
Proof.
  intros Hn. unfold with_timestamp, wire_timestamp. simpl.
  apply Z.eqb_neq in Hn. now rewrite Hn.
Qed.

Lemma includes_true (l : list string) (x : string) :
  includes l x = true <-> In x l.
Proof.
  unfold includes. rewrite existsb_exists. split.
  - intros (y & Hin & Heq). apply String.eqb_eq in Heq. now subst.
  - intros Hin. exists x. split; auto. apply String.eqb_refl.
Qed.

Lemma excluded_connections_keys m (excl : list string) k :
  In k (Helper.excluded_connections m excl) -> In k (JSMap.keys m).
Proof.
  induction m as [|[k0 c0] m IH]; simpl; auto.
  destruct (Helper.user_excluded excl c0); simpl; intuition.
Qed.

(** On a well-formed registry the ids that [broadcast] excludes are those of
    the entries whose user is excluded. *)
Lemma excluded_connections_spec m (excl : list string) k c :
  JSMap.wf m -> In (k, c) m ->
  includes (Helper.excluded_connections m excl) k = Helper.user_excluded excl c.
Proof.
  unfold JSMap.wf. induction m as [|[k0 c0] m IH]; simpl; [tauto|].
  intros Hnd Hin. inversion Hnd as [|? ? Hnin Hnd']; subst.
  destruct Hin as [[= -> ->] | Hin].
  - destruct (Helper.user_excluded excl c) eqn:Hex.
    + apply includes_true. now left.
    + apply includes_false. intros Hk.
      apply Hnin. now apply (excluded_connections_keys m excl).
  - assert (Hne : k <> k0).
    { intros ->. apply Hnin. apply in_map_iff. exists (k0, c). auto. }
    destruct (Helper.user_excluded excl c0); [|now apply IH].
    unfold includes. simpl. apply String.eqb_neq in Hne. rewrite Hne. simpl.
    now apply IH.
Qed.

Lemma helper_broadcast_unfold s ty d (excl : list string) :
  Helper.broadcast ty d excl s
  = broadcast (mkMessage ty d (Some (Date_now (world s))))
      (if (0 <? length excl)%nat
       then Helper.excluded_connections (connections s) excl
       else [])
      s.
Proof. reflexivity. Qed.

(** X20. The helper stamps its envelopes itself.  When Date.now() reads a
    value other than 0 at the call, every frame that sendToConnection or the
    helper's broadcast writes is what JSON.stringify renders for the
    envelope stamped with that reading. *)
Theorem helper_frames_carry_the_clock s k ty d (excl : list string) :
  Date_now (world s) <> 0 ->
  (exists (b : bool) s' new,
     Helper.sendToConnection k ty d s = (Normal b, s') /\
     calls s' = (calls s ++ new)%list /\
     Forall (fun call =>
               exists w payload,
                 JSON_stringify (mkMessage ty d (Some (Date_now (world s))))
                 = Normal payload /\
                 call = CallSend w payload)
            new) /\
  (exists (r : Completion unit) s' new,
     Helper.broadcast ty d excl s = (r, s') /\
     calls s' = (calls s ++ new)%list /\
     Forall (fun call =>
               exists w payload,
                 JSON_stringify (mkMessage ty d (Some (Date_now (world s))))
                 = Normal payload /\
                 call = CallSend w payload)
            new).
Proof.
  intros Hnow. split.
  - unfold Helper.sendToConnection, bind at 1, call_Date_now.
    destruct (send_shape s k (mkMessage ty d (Some (Date_now (world s)))))
      as (b & s' & new & Hrun & _ & Hcalls & _ & Hall).
    exists b, s', new. repeat split; auto.
    eapply Forall_impl; [|exact Hall].
    intros call (c & payload & _ & Hjson & ->).
    rewrite (stamped_frame ty d _ (world s) Hnow) in Hjson. eauto.
  - rewrite helper_broadcast_unfold, broadcast_unfold.
    rewrite (stamped_frame ty d _ (world s) Hnow).
    destruct (JSON_stringify _) as [payload|e].
    + match goal with |- context [forEach _ (broadcast_to _ ?ex) _] =>
        destruct (broadcast_loop_payload payload ex (connections s) s)
          as (s' & new & Hrun & _ & Hcalls & Hall) end.
      exists (Normal tt), s', new. rewrite Hrun. repeat split; auto.
      eapply Forall_impl; [|exact Hall].
      intros call (w & ->). eauto.
    + exists (Throw e), s, []. rewrite app_nil_r. repeat split; auto.
Qed.

(** X21. On a well-formed registry and a host whose writes leave readyState
    alone, the helper's broadcast builds one frame, the envelope with a
    timestamp (the reading of Date.now() at the call, when that is not 0).
    When JSON.stringify renders it, broadcast completes normally and writes
    it once to every connection that is open and whose metadata.userId is
    not a non-empty member of excludeUserIds, in registration order, and to
    nobody else: connections without a userId, or with the empty one, are
    never excluded.  When JSON.stringify throws, broadcast throws and
    nothing has changed. *)
Theorem helper_broadcast_recipients s ty d (excl : list string) :
  send_keeps_readyState (RT := RT) ->
  JSMap.wf (connections s) ->
  exists t : Z,
    (Date_now (world s) <> 0 -> t = Date_now (world s)) /\
    match JSON_stringify (mkMessage ty d (Some t)) with
    | Normal payload =>
        exists s',
          Helper.broadcast ty d excl s = (Normal tt, s') /\
          connections s' = connections s /\
          calls s' =
            (calls s ++
             map (fun entry => CallSend (ws (snd entry)) payload)
                 (filter (Helper.broadcast_recipient excl (world s))
                         (connections s)))%list
    | Throw e => Helper.broadcast ty d excl s = (Throw e, s)
    end.
Proof.
  intros Hkeep Hwf.
  exists (wire_timestamp (mkMessage ty d (Some (Date_now (world s)))) (world s)).
  split.
  { intros Hnow. unfold wire_timestamp. simpl.
    apply Z.eqb_neq in Hnow. now rewrite Hnow. }
  rewrite helper_broadcast_unfold, broadcast_unfold.
  change (with_timestamp (mkMessage ty d (Some (Date_now (world s))))
            (wire_timestamp (mkMessage ty d (Some (Date_now (world s)))) (world s)))
    with (mkMessage ty d
            (Some (wire_timestamp (mkMessage ty d (Some (Date_now (world s))))
                                  (world s)))).
  destruct (JSON_stringify _) as [payload|e]; [|reflexivity].
  match goal with |- context [forEach _ (broadcast_to _ ?ex) _] =>
    destruct (broadcast_loop payload ex (connections s) Hkeep s)
      as (s' & Hrun & Hc & Hcalls & _) end.
  exists s'. rewrite Hrun. repeat split; auto.
  rewrite Hcalls. do 2 f_equal.
  apply filter_ext_in. intros [k c] Hin.
  unfold recipient, Helper.broadcast_recipient. simpl. f_equal. f_equal.
  destruct (0 <? length excl)%nat eqn:Hlen.
  - now apply excluded_connections_spec.
  - apply Nat.ltb_ge in Hlen. destruct excl; [|simpl in Hlen; lia].
    unfold Helper.user_excluded. simpl.
    destruct (Helper.metadata_userId c); [now rewrite andb_false_r | reflexivity].
Qed.

Lemma send_effect s k (message : WSMessage Data) c (payload : string) :
  JSMap.get k (connections s) = Some c ->
  JSON_stringify (with_timestamp message (wire_timestamp message (world s)))
  = Normal payload ->
  exists (b : bool) s',
    send k message s = (Normal b, s') /\
    connections s' = connections s /\
    if readyState (ws c) (world s) =? 1 then
      calls s' = (calls s ++ [CallSend (ws c) payload])%list /\
      world s' = snd (ws_send (ws c) payload (world s))
    else s' = s.
Proof.
  intros Hget Hjson.
  destruct (readyState (ws c) (world s) =? 1) eqn:Hopen.
  - apply Z.eqb_eq in Hopen.
    rewrite (send_unfold s k message c Hget Hopen), Hjson.
    destruct (ws_send (ws c) payload (world s)) as [[[]|e] wd];
      eexists; eexists; (split; [reflexivity|]); simpl; auto.
  - apply Z.eqb_neq in Hopen.
    rewrite (send_not_open s k message c Hget Hopen). eauto.
Qed.

Lemma room_recipient_ext (r : string) (excl : list string) (wd wd' : World)
    (entry : string * WSConnection Helper.UserMeta) :
  (forall w, readyState w wd' = readyState w wd) ->
  Helper.room_recipient r excl wd' entry = Helper.room_recipient r excl wd entry.
Proof. intros H. unfold Helper.room_recipient. now rewrite H. Qed.

Lemma broadcastToRoom_loop_spec (r : string) ty d (excl : list string) M :
  send_keeps_readyState (RT := RT) -> JSMap.wf M ->
  (forall t : Z, exists payload,
      JSON_stringify (mkMessage ty d (Some t)) = Normal payload) ->
  forall l s,
    connections s = M -> incl l M ->
    exists s' new,
      Helper.broadcastToRoom_loop l r ty d excl s = (Normal tt, s') /\
      connections s' = M /\
      calls s' = (calls s ++ new)%list /\
      (forall w, readyState w (world s') = readyState w (world s)) /\
      map call_socket new
      = map (fun entry => ws (snd entry))
            (filter (Helper.room_recipient r excl (world s)) l) /\
      Forall (fun call => exists w p, call = CallSend w p) new.
Proof.
  intros Hkeep Hwf Hser. induction l as [|[k c] l IH]; intros s HM Hincl; simpl.
  - exists s, []. unfold ret. rewrite app_nil_r. repeat split; auto.
  - assert (Hl : incl l M) by (intros e He; apply Hincl; now right).
    assert (Hget : JSMap.get k (connections s) = Some c).
    { rewrite HM. apply JSMapMore.get_of_entry; auto. apply Hincl. now left. }
    unfold bind at 1. unfold Helper.room_recipient at 1. simpl.
    destruct (Helper.in_room c r); simpl;
      [destruct (Helper.shouldExclude excl c); simpl|].
    + destruct (IH s HM Hl) as (s' & new & Hrun & Hc & Hcalls & Hrs & Hmap & Hall).
      exists s', new. rewrite Hrun. repeat split; auto.
    + unfold bind at 1, call_Date_now. unfold bind at 1.
      destruct (Hser (wire_timestamp (mkMessage ty d (Some (Date_now (world s))))
                                     (world s))) as [p Hp].
      destruct (send_effect s k (mkMessage ty d (Some (Date_now (world s)))) c p
                  Hget Hp)
        as (b & s1 & Hsend & Hc1 & Heff).
      rewrite Hsend. unfold ret at 1. cbv beta iota.
      destruct (readyState (ws c) (world s) =? 1) eqn:Hopen.
      * destruct Heff as (Hcalls1 & Hw1).
        assert (Hrs1 : forall w, readyState w (world s1) = readyState w (world s))
          by (intros w; rewrite Hw1; apply Hkeep).
        destruct (IH s1 (eq_trans Hc1 HM) Hl)
          as (s' & new & Hrun & Hc & Hcalls & Hrs & Hmap & Hall).
        exists s', (CallSend (ws c) p :: new). rewrite Hrun.
        repeat split; auto.
        -- rewrite Hcalls, Hcalls1, <- app_assoc. reflexivity.
        -- intros w. now rewrite Hrs.
        -- simpl. f_equal. rewrite Hmap. f_equal.
           apply filter_ext. intros e. now apply room_recipient_ext.
        -- constructor; eauto.
      * subst s1.
        destruct (IH s HM Hl) as (s' & new & Hrun & Hc & Hcalls & Hrs & Hmap & Hall).
        exists s', new. rewrite Hrun. repeat split; auto.
    + destruct (IH s HM Hl) as (s' & new & Hrun & Hc & Hcalls & Hrs & Hmap & Hall).
      exists s', new. rewrite Hrun. repeat split; auto.
Qed.

(** X22. On a well-formed registry and a host whose writes leave readyState
    alone, and for data that JSON.stringify renders whatever the timestamp
    beside it, broadcastToRoom makes only sends, one to each connection that
    has the room in metadata.rooms, whose userId is not in excludeUserIds
    and whose socket is open, in registration order; the registry is
    untouched. *)
Theorem helper_broadcastToRoom_recipients s (r : string) ty d (excl : list string) :
  send_keeps_readyState (RT := RT) ->
  JSMap.wf (connections s) ->
  (forall t : Z, exists payload,
      JSON_stringify (mkMessage ty d (Some t)) = Normal payload) ->
  exists s' new,
    Helper.broadcastToRoom r ty d excl s = (Normal tt, s') /\
    connections s' = connections s /\
    calls s' = (calls s ++ new)%list /\
    Forall (fun call => exists w p, call = CallSend w p) new /\
    map call_socket new
    = map (fun entry => ws (snd entry))
          (filter (Helper.room_recipient r excl (world s)) (connections s)).
Proof.
  intros Hkeep Hwf Hser.
  unfold Helper.broadcastToRoom, getConnections, bind at 1, this_connections.
  destruct (broadcastToRoom_loop_spec r ty d excl (connections s) Hkeep Hwf Hser
              (connections s) s eq_refl (incl_refl _))
    as (s' & new & Hrun & Hc & Hcalls & _ & Hmap & Hall).
  exists s', new. repeat split; auto.
Qed.

Lemma isUserOnline_loop_app pre post u :
  Helper.isUserOnline_loop pre u = false ->
  Helper.isUserOnline_loop (pre ++ post)%list u = Helper.isUserOnline_loop post u.
Proof.
  induction pre as [|[k c] pre IH]; simpl; auto.
  destruct (Helper.is_user c u); [discriminate | exact IH].
Qed.

(** X23. disconnectUser closes and forgets only the first connection of the
    user: when that close returns, the result is true, the other entries
    keep their order, and the user is still online exactly when a later
    connection of theirs is registered. *)
Theorem disconnectUser_forgets_first_connection_only
    s pre k c post u (wd : World) :
  JSMap.wf (connections s) ->
  connections s = (pre ++ (k, c) :: post)%list ->
  Helper.isUserOnline_loop pre u = false ->
  Helper.is_user c u = true ->
  ws_close (ws c) (world s) = (Normal tt, wd) ->
  exists s',
    Helper.disconnectUser u s = (Normal true, s') /\
    connections s' = (pre ++ post)%list /\
    calls s' = (calls s ++ [CallClose (ws c)])%list /\
    Helper.isUserOnline u s' = (Normal (Helper.isUserOnline_loop post u), s').
Proof.
  intros Hwf Hm Hpre Hc Hok.
  assert (Hd : Helper.disconnectUser_loop (World := World) (Data := Data)
                 (pre ++ (k, c) :: post)%list u = disconnect k).
  { clear - Hpre Hc. induction pre as [|[k0 c0] pre IH]; simpl in *.
    - now rewrite Hc.
    - destruct (Helper.is_user c0 u); [discriminate|]. now apply IH. }
  assert (Hget : JSMap.get k (connections s) = Some c).
  { apply JSMapMore.get_of_entry; auto. rewrite Hm. apply in_or_app. right. now left. }
  unfold Helper.disconnectUser, getConnections, bind at 1, this_connections.
  cbv beta iota.
  pose proof (f_equal (fun f => f s) Hd) as Hrun. cbv beta in Hrun.
  rewrite <- Hm in Hrun. rewrite Hrun. clear Hrun Hd.
  unfold disconnect, bind at 1, this_connections. rewrite Hget.
  unfold try_catch, bind at 1, call_close. rewrite Hok.
  js_unfold. cbn [fst snd JSMap.delete connections world calls console].
  eexists. split; [reflexivity|]. cbn [connections calls].
  assert (Hdel : snd (JSMap.delete k (connections s)) = (pre ++ post)%list).
  { rewrite Hm. apply JSMapMore.delete_middle. now rewrite <- Hm. }
  unfold JSMap.delete in Hdel. cbn [snd] in Hdel.
  split; [exact Hdel|]. split; [reflexivity|].
  unfold Helper.isUserOnline, getConnections, bind, this_connections, ret.
  cbn [connections]. rewrite Hdel.
  now rewrite isUserOnline_loop_app.
Qed.

End WithManager.

End HelperFacts.

(** ** The plugin and the production handler *)
Module PluginFacts.
Import Plugin.

Section WithManager.

Context {World Data Meta : Type} {RT : Runtime World Data}.
Implicit Types (st : State World Meta) (c : WSConnection Meta)
  (m : JSMap.t Timer) (t : Timer).

Lemma filter_none_of_cons (t0 : Timer) (ts l : list Timer) :
  filter (none_of ts) (filter (fun t => negb (Nat.eqb t t0)) l)
  = filter (none_of (t0 :: ts)) l.
Proof.
  induction l as [|x l IH]; simpl; auto.
  unfold none_of at 2. simpl.
  destruct (Nat.eqb x t0); simpl; rewrite IH; reflexivity.
Qed.

Lemma filter_none_of_nil (l : list Timer) : filter (none_of []) l = l.
Proof. induction l as [|x l IH]; simpl; congruence. Qed.

(** The loop of [closeBundle] stops every timer on record, in order. *)
Lemma clear_all_timers m st :
  forEach_timer m clearInterval st
  = (Normal tt,
     mkState (manager st) (heartbeatTimers st)
             (filter (none_of (JSMap.values m)) (intervals st))
             (next_timer st) (cleared st ++ JSMap.values m) (wss st) (stdout st)).
Proof.
  revert st. induction m as [|[k t] m IH]; intros st; simpl.
  - unfold retP. rewrite filter_none_of_nil, app_nil_r. now destruct st.
  - unfold bindP, clearInterval. rewrite IH. simpl.
    now rewrite filter_none_of_cons, <- app_assoc.
Qed.

Lemma clear_result (s : Sys World Meta) :
  exists s',
    clear s = (Normal tt, s') /\
    connections s' = JSMap.empty /\
    calls s' = (calls s ++ map (fun entry => CallClose (ws (snd entry)))
                               (connections s))%list.
Proof.
  unfold clear, bind at 1, this_connections.
  destruct (clear_loop (connections s) s) as (s1 & Hrun & Hc & Hcalls & Hcon).
  unfold bind. rewrite Hrun. unfold set_connections.
  eexists. split; [reflexivity|]. simpl. now rewrite Hcalls.
Qed.

(** X24. closeBundle (and the cleanup that createWebSocketHandler returns)
    completes normally whatever the sockets do.  It stops every heartbeat
    timer on record once, in order, and forgets them; then it has the
    manager close every registered socket once and empty the registry; then
    it closes the WebSocketServer, if one was created. *)
Theorem closeBundle_tears_everything_down st :
  exists st',
    closeBundle st = (Normal tt, st') /\
    heartbeatTimers st' = JSMap.empty /\
    cleared st' = (cleared st ++ JSMap.values (heartbeatTimers st))%list /\
    (forall t, In t (JSMap.values (heartbeatTimers st)) -> ~ In t (intervals st')) /\
    connections (manager st') = JSMap.empty /\
    calls (manager st')
    = (calls (manager st)
       ++ map (fun entry => CallClose (ws (snd entry)))
              (connections (manager st)))%list /\
    wss st' = match wss st with Some _ => Some true | None => None end.
Proof.
  unfold closeBundle, bindP at 1, this_heartbeatTimers.
  unfold bindP at 1. rewrite clear_all_timers.
  unfold bindP at 1, set_heartbeatTimers. simpl.
  unfold bindP at 1, on_manager. simpl.
  destruct (clear_result (manager st)) as (s' & Hclear & Hc & Hcalls).
  rewrite Hclear. unfold wss_close. simpl.
  eexists. split; [reflexivity|]. simpl. repeat split; auto.
  intros t Hin Hrun. apply filter_In in Hrun. destruct Hrun as [_ Hnone].
  unfold none_of in Hnone. apply negb_true_iff in Hnone.
  apply Bool.not_true_iff_false in Hnone. apply Hnone.
  apply existsb_exists. exists t. split; auto. apply Nat.eqb_refl.
Qed.

(** X25. The socket's 'close' listener completes normally; it stops and
    forgets the heartbeat timer of that connection, if it has one, and
    removes the connection from the registry.  It makes no call on any
    socket, and the timers and registrations of all other ids are as
    before. *)
Theorem on_close_forgets_the_connection st c :
  exists st',
    on_close c st = (Normal tt, st') /\
    JSMap.get (id c) (heartbeatTimers st') = None /\
    JSMap.get (id c) (connections (manager st')) = None /\
    cleared st'
    = (cleared st ++ match JSMap.get (id c) (heartbeatTimers st) with
                     | Some t => [t]
                     | None => []
                     end)%list /\
    calls (manager st') = calls (manager st) /\
    (forall j, j <> id c ->
       JSMap.get j (heartbeatTimers st') = JSMap.get j (heartbeatTimers st) /\
       JSMap.get j (connections (manager st'))
       = JSMap.get j (connections (manager st))).
Proof.
  unfold on_close, bindP at 1, console_log.
  unfold bindP at 1, this_heartbeatTimers. simpl.
  destruct (JSMap.get (id c) (heartbeatTimers st)) as [t|] eqn:Hget.
  - unfold bindP at 1. unfold bindP at 1, clearInterval, set_heartbeatTimers.
    simpl. unfold bindP, on_manager, retP. simpl.
    eexists. split; [reflexivity|]. simpl.
    split; [apply (JSMapFacts.get_delete_same (heartbeatTimers st))|].
    split; [apply (JSMapFacts.get_delete_same (connections (manager st)))|].
    repeat split.
    + now apply (JSMapFacts.get_delete_other (heartbeatTimers st)).
    + now apply (JSMapFacts.get_delete_other (connections (manager st))).
  - unfold bindP at 1. unfold retP at 1.
    unfold bindP, on_manager, retP. simpl.
    eexists. split; [reflexivity|]. simpl.
    split; [exact Hget|].
    split; [apply (JSMapFacts.get_delete_same (connections (manager st)))|].
    rewrite app_nil_r. repeat split.
    now apply (JSMapFacts.get_delete_other (connections (manager st))).
Qed.

Lemma filter_none_of_self (l : list Timer) : filter (none_of l) l = [].
Proof.
  assert (H : forall l' : list Timer, incl l' l -> filter (none_of l) l' = []).
  { induction l' as [|x l' IH]; intros Hincl; simpl; auto.
    assert (Hx : none_of l x = false).
    { unfold none_of. apply negb_false_iff. apply existsb_exists.
      exists x. split; [apply Hincl; now left | apply Nat.eqb_refl]. }
    rewrite Hx. apply IH. intros y Hy. apply Hincl. now right. }
  apply H, incl_refl.
Qed.

Lemma filter_other_timers (l : list Timer) t :
  ~ In t l -> filter (fun x => negb (Nat.eqb x t)) l = l.
Proof.
  induction l as [|x l IH]; simpl; auto.
  intros Hn. destruct (Nat.eqb_spec x t) as [-> | Hne]; [tauto|].
  simpl. rewrite IH; tauto.
Qed.

Lemma get_in_values m (k : string) t : JSMap.get k m = Some t -> In t (JSMap.values m).
Proof.
  intros H. apply JSMapFacts.get_some_in in H.
  unfold JSMap.values. apply in_map_iff. exists (k, t). auto.
Qed.

(** Deleting an id from the record takes exactly its timer out of the
    values, when no timer is recorded twice. *)
Lemma values_delete m (k : string) t :
  JSMap.wf m -> NoDup (JSMap.values m) -> JSMap.get k m = Some t ->
  JSMap.values (snd (JSMap.delete k m))
  = filter (fun x => negb (Nat.eqb x t)) (JSMap.values m).
Proof.
  unfold JSMap.wf, JSMap.keys, JSMap.values.
  induction m as [|[k0 t0] m IH]; simpl; [discriminate|].
  intros Hwf Hnd. inversion Hwf as [|? ? Hk0 Hwf']; subst.
  inversion Hnd as [|? ? Ht0 Hnd']; subst.
  destruct (String.eqb_spec k k0) as [-> | Hne]; simpl.
  - intros [= ->]. rewrite Nat.eqb_refl. simpl.
    assert (Hnone : JSMap.get k0 m = None) by (apply JSMapFacts.get_none_not_in; exact Hk0).
    pose proof (JSMapFacts.delete_absent m k0 Hnone) as Hd.
    unfold JSMap.delete in Hd. injection Hd as _ Hd. rewrite Hd.
    symmetry. now apply filter_other_timers.
  - intros Hget.
    assert (Ht : t0 <> t).
    { intros ->. apply Ht0. now apply (get_in_values m k t). }
    apply Nat.eqb_neq in Ht. rewrite Ht. simpl. f_equal.
    now apply IH.
Qed.

(** One stretch keeps the timers on record, and records no timer for an id
    whose heartbeat it did not set up. *)
Lemma handle_keeps_record (heartbeat : bool) (ev : Event Meta) st :
  timers_on_record st ->
  (forall i, In i (heartbeat_ids [ev]) -> JSMap.get i (heartbeatTimers st) = None) ->
  exists st1,
    handle heartbeat ev st = (Normal tt, st1) /\
    timers_on_record st1 /\
    (forall i, JSMap.get i (heartbeatTimers st) = None ->
               ~ In i (heartbeat_ids [ev]) ->
               JSMap.get i (heartbeatTimers st1) = None) /\
    (heartbeat = false -> heartbeatTimers st = JSMap.empty ->
     heartbeatTimers st1 = JSMap.empty).
Proof.
  intros (Hval & Hwf & Hnd & Hlt) Hfresh.
  destruct ev as [w md | c | c | ]; simpl in *.
  - unfold on_connection_register, bindP at 1. unfold bindP at 1, on_manager.
    unfold addConnection, bind, call_randomUUID, this_connections,
      set_connections, ret.
    destruct (randomUUID (world (manager st))) as [u wd]. simpl.
    eexists. split; [reflexivity|]. simpl.
    repeat split; auto.
  - unfold on_connection_heartbeat. destruct heartbeat.
    + unfold bindP, setInterval, this_heartbeatTimers, set_heartbeatTimers.
      simpl. eexists. split; [reflexivity|]. simpl.
      assert (Hnone : JSMap.get (id c) (heartbeatTimers st) = None)
        by (apply Hfresh; now left).
      split; [|split].
      * unfold timers_on_record. simpl.
        rewrite JSMapFacts.set_fresh by exact Hnone.
        unfold JSMap.values in *. rewrite map_app. simpl. rewrite Hval.
        split; [reflexivity|].
        split; [rewrite <- JSMapFacts.set_fresh by exact Hnone;
                now apply JSMapFacts.wf_set|].
        rewrite <- Hval. split.
        -- apply NoDup_app; auto.
           ++ repeat constructor. simpl. tauto.
           ++ intros x Hx [<- | []].
              rewrite Forall_forall in Hlt. specialize (Hlt _ Hx). lia.
        -- apply Forall_app. split.
           ++ eapply Forall_impl; [|exact Hlt]. simpl. intros; lia.
           ++ repeat constructor.
      * intros i Hi Hni. rewrite JSMapFacts.get_set_other; auto.
      * intros [=].
    + unfold retP. exists st. repeat split; auto.
  - unfold on_close, bindP at 1, console_log.
    unfold bindP at 1, this_heartbeatTimers. simpl.
    destruct (JSMap.get (id c) (heartbeatTimers st)) as [t|] eqn:Hget.
    + unfold bindP at 1. unfold bindP at 1, clearInterval, set_heartbeatTimers.
      simpl. unfold bindP, on_manager, retP. simpl.
      eexists. split; [reflexivity|]. simpl.
      split; [|split].
      * unfold timers_on_record. simpl.
        pose proof (values_delete (heartbeatTimers st) (id c) t Hwf) as Hvd.
        rewrite <- Hval in Hvd. specialize (Hvd Hnd Hget).
        simpl in Hvd. rewrite Hvd.
        split; [reflexivity|].
        split; [apply (JSMapFacts.wf_delete (heartbeatTimers st)); exact Hwf|].
        split; [now apply NoDup_filter|].
        rewrite Forall_forall in *. intros x Hx.
        apply filter_In in Hx. now apply Hlt.
      * intros i Hi _. destruct (String.eqb_spec i (id c)) as [-> | Hne].
        -- apply (JSMapFacts.get_delete_same (heartbeatTimers st)).
        -- rewrite <- Hi.
           now apply (JSMapFacts.get_delete_other (heartbeatTimers st)).
      * intros _ Hempty. rewrite Hempty in Hget. discriminate.
    + unfold bindP at 1. unfold retP at 1.
      unfold bindP, on_manager, retP. simpl.
      eexists. split; [reflexivity|]. simpl.
      repeat split; auto.
  - unfold closeBundle, bindP at 1, this_heartbeatTimers.
    unfold bindP at 1. rewrite clear_all_timers.
    unfold bindP at 1, set_heartbeatTimers. simpl.
    unfold bindP at 1, on_manager. simpl.
    destruct (clear_result (manager st)) as (s' & Hclear & _).
    rewrite Hclear. unfold wss_close. simpl.
    eexists. split; [reflexivity|]. simpl.
    split; [|split; auto].
    unfold timers_on_record. simpl.
    rewrite Hval, filter_none_of_self.
    repeat split; constructor.
Qed.

Lemma run_events_keeps_record (heartbeat : bool) (evs : list (Event Meta)) :
  forall st,
    timers_on_record st ->
    NoDup (heartbeat_ids evs) ->
    (forall i, In i (heartbeat_ids evs) -> JSMap.get i (heartbeatTimers st) = None) ->
    exists st',
      run_events heartbeat evs st = (Normal tt, st') /\
      timers_on_record st' /\
      (heartbeat = false -> heartbeatTimers st = JSMap.empty ->
       heartbeatTimers st' = JSMap.empty).
Proof.
  induction evs as [|ev evs IH]; intros st Hrec Hnd Hfresh.
  - exists st. split; [reflexivity|]. split; auto.
  - assert (Hsplit : heartbeat_ids (ev :: evs)
                     = (heartbeat_ids [ev] ++ heartbeat_ids evs)%list)
      by (destruct ev; reflexivity).
    rewrite Hsplit in Hnd, Hfresh.
    destruct (handle_keeps_record heartbeat ev st Hrec) as (st1 & Hstep & Hrec1 & Hkeep & Hoff).
    { intros i Hi. apply Hfresh. apply in_or_app. now left. }
    destruct (IH st1 Hrec1) as (st' & Hrun & Hrec' & Hoff').
    { now apply NoDup_app_remove_l in Hnd. }
    { intros i Hi. apply Hkeep.
      - apply Hfresh. apply in_or_app. now right.
      - intros Hin. destruct ev; simpl in Hin, Hnd; try tauto.
        destruct Hin as [<- | []]. inversion Hnd. contradiction. }
    exists st'. simpl. unfold bindP. rewrite Hstep.
    split; [exact Hrun|]. split; [exact Hrec'|].
    intros Hb Hempty. apply Hoff'; auto.
Qed.

(** X26. Start with no timer on record and none running, and let the
    plugin go through any sequence of its stretches (connection registered,
    heartbeat set up, socket closed, closeBundle) in which no connection id
    has its heartbeat set up twice.  Every stretch completes normally, and
    afterwards the interval timers that run are exactly the ones on record
    in heartbeatTimers, in order: none has leaked, so closeBundle stops them
    all.  With the heartbeat option off, no timer runs at all. *)
Theorem no_heartbeat_timer_leaks (heartbeat : bool) (evs : list (Event Meta)) st :
  heartbeatTimers st = JSMap.empty ->
  intervals st = [] ->
  NoDup (heartbeat_ids evs) ->
  exists st',
    run_events heartbeat evs st = (Normal tt, st') /\
    intervals st' = JSMap.values (heartbeatTimers st') /\
    JSMap.wf (heartbeatTimers st') /\
    (heartbeat = false -> intervals st' = []).
Proof.
  intros Hempty Hnone Hnd.
  destruct (run_events_keeps_record heartbeat evs st) as (st' & Hrun & Hrec & Hoff); auto.
  - unfold timers_on_record. rewrite Hempty, Hnone. repeat split; constructor.
  - intros i _. now rewrite Hempty.
  - destruct Hrec as (Hval & Hwf & _).
    exists st'. repeat split; auto.
    intros Hb. rewrite Hval, (Hoff Hb Hempty). reflexivity.
Qed.

End WithManager.

End PluginFacts.

(** ** More scenarios on the test host *)

Ltac distinct_keys := repeat constructor; simpl; intuition discriminate.

(** X1, on the test host: "c" is registered with socket 3, which is open and
    writes. *)
Lemma send_delivers_witness :
  send "c" (mkMessage "x" 1 None) (Mock.manager Mock.registry (Mock.troubled 100))
  = (Normal true,
     mkSys Mock.registry (Mock.tick (Mock.troubled 100))
           [CallSend 3 (Mock.frame 100)] []).
Proof.
  exact (send_delivers (RT := Mock.runtime)
           (Mock.manager Mock.registry (Mock.troubled 100)) "c"
           (mkMessage "x" 1 None) (mkConnection 3 "c" None) (Mock.frame 100)
           (Mock.tick (Mock.troubled 100)) eq_refl eq_refl eq_refl eq_refl).
Defined.

(** X27, on the test host: "c" is open, the data refers to itself. *)
Lemma send_serialization_failure_witness :
  send (RT := Mock.runtime_any) "c" (mkMessage "x" Mock.Cyclic None)
       (Mock.manager Mock.registry (Mock.troubled 100))
  = (Normal false,
     mkSys Mock.registry (Mock.troubled 100) []
           [("Failed to send message to c:",
             "TypeError: Converting circular structure to JSON")]).
Proof.
  exact (send_serialization_failure (RT := Mock.runtime_any)
           (Mock.manager Mock.registry (Mock.troubled 100)) "c"
           (mkMessage "x" Mock.Cyclic None) (mkConnection 3 "c" None)
           "TypeError: Converting circular structure to JSON"
           eq_refl eq_refl eq_refl).
Defined.

(** X4, on the test host: an envelope stamped 42 is sent to "c" and
    broadcast to all but "b". *)
Lemma supplied_timestamp_goes_out_unchanged_witness :
  (exists (b : bool) s' new,
     send "c" (mkMessage "x" 1 (Some 42))
          (Mock.manager Mock.registry (Mock.troubled 100)) = (Normal b, s') /\
     calls s' = new /\
     Forall (fun call => exists w, call = CallSend w (Mock.frame 42)) new) /\
  (exists (r : Completion unit) s' new,
     broadcast (mkMessage "x" 1 (Some 42)) ["b"]
               (Mock.manager Mock.registry (Mock.troubled 100)) = (r, s') /\
     calls s' = new /\
     Forall (fun call => exists w, call = CallSend w (Mock.frame 42)) new).
Proof.
  destruct (supplied_timestamp_goes_out_unchanged (RT := Mock.runtime)
              (Mock.manager Mock.registry (Mock.troubled 100)) "c"
              (mkMessage "x" 1 (Some 42)) ["b"] 42)
    as [(b & s1 & new1 & Hrun1 & Hcalls1 & Hall1)
        (r & s2 & new2 & Hrun2 & Hcalls2 & Hall2)];
    [reflexivity | lia |].
  split.
  - exists b, s1, new1. split; [exact Hrun1|]. split; [exact Hcalls1|].
    eapply Forall_impl; [|exact Hall1].
    intros call (w & payload & Hjson & ->). injection Hjson as <-. now exists w.
  - exists r, s2, new2. split; [exact Hrun2|]. split; [exact Hcalls2|].
    eapply Forall_impl; [|exact Hall2].
    intros call (w & payload & Hjson & ->). injection Hjson as <-. now exists w.
Defined.

(** X5, on the test host: "b" is removed from the four registered. *)
Lemma removeConnection_forgets_only_that_id_witness :
  exists s',
    removeConnection "b" (Mock.manager Mock.registry (Mock.healthy 100))
    = (Normal true, s') /\
    JSMap.get "b" (connections s') = None /\
    JSMap.get "c" (connections s') = Some (mkConnection 3 "c" None) /\
    calls s' = [] /\
    JSMap.size (connections s') = 3%nat.
Proof.
  destruct (removeConnection_forgets_only_that_id
              (Mock.manager Mock.registry (Mock.healthy 100)) "b")
    as (s' & Hrun & _ & Hcalls & _ & Hget & Hother & Hsize).
  { distinct_keys. }
  exists s'. split; [exact Hrun|]. split; [exact Hget|].
  split; [apply Hother; discriminate|]. split; [exact Hcalls|].
  simpl in Hsize. lia.
Defined.

(** X6, on the test host: the first connection of a fresh manager. *)
Lemma addConnection_appends_witness :
  exists c s',
    addConnection (Meta := unit) 7 None (Mock.fresh (Mock.healthy 100))
    = (Normal c, s') /\
    connections s' = [(id c, c)] /\
    JSMap.size (connections s') = 1%nat.
Proof.
  destruct (addConnection_appends (RT := Mock.runtime) (Meta := unit)
              (Mock.fresh (Mock.healthy 100)) 7 None)
    as (c & s' & Hrun & _ & _ & _ & Hfresh).
  exists c, s'. split; [exact Hrun|]. exact (Hfresh eq_refl).
Defined.

(** X7, on the test host: the close of "a" returns. *)
Lemma disconnect_is_close_then_removeConnection_witness :
  disconnect "a" (Mock.manager Mock.registry (Mock.healthy 100))
  = removeConnection "a"
      (mkSys Mock.registry (Mock.closing 1 (Mock.healthy 100)) [CallClose 1] []) /\
  fst (disconnect "a" (Mock.manager Mock.registry (Mock.healthy 100))) = Normal true.
Proof.
  exact (disconnect_is_close_then_removeConnection (RT := Mock.runtime)
           (Mock.manager Mock.registry (Mock.healthy 100)) "a"
           (mkConnection 1 "a" None) (Mock.closing 1 (Mock.healthy 100))
           eq_refl eq_refl).
Defined.

(** X8, on the test host: "b" is disconnected (its close throws) and "c" is
    looked up. *)
Lemma disconnect_keeps_other_ids_witness :
  exists (b : bool) s',
    disconnect "b" (Mock.manager Mock.registry (Mock.troubled 100)) = (Normal b, s') /\
    JSMap.get "c" (connections s') = Some (mkConnection 3 "c" None).
Proof.
  destruct (disconnect_keeps_other_ids (RT := Mock.runtime)
              (Mock.manager Mock.registry (Mock.troubled 100)) "b" "c")
    as (b & s' & Hrun & Hget).
  { discriminate. }
  exists b, s'. split; [exact Hrun | exact Hget].
Defined.

(** X10, on the test host: adds and removals on a fresh manager. *)
Lemma reachable_registry_is_keyed_by_id_witness :
  exists (tl : Tally) s',
    run [OpAdd 1 None; OpAdd 2 None; OpRemove "uuid-0"; OpAdd 3 None]
        (Mock.fresh (Mock.healthy 100)) = (Normal tl, s') /\
    JSMap.wf (connections s').
Proof.
  destruct (reachable_registry_is_keyed_by_id (RT := Mock.runtime)
              [OpAdd 1 None; OpAdd 2 None; OpRemove "uuid-0"; OpAdd 3 None]
              (Mock.fresh (Mock.healthy 100)) "uuid-1"
              (mkConnection 2 "uuid-1" None) eq_refl)
    as (tl & s' & Hrun & Hwf & _).
  exists tl, s'. split; [exact Hrun | exact Hwf].
Defined.

Lemma demo_rooms_ok : Chat.rooms_ok Demo.rooms.
Proof.
  split; [distinct_keys|].
  intros r room [[= <- <-] | []]. split; [discriminate | distinct_keys].
Defined.

(** X14, on the example's rooms: bob joins the lobby and leaves it. *)
Lemma join_then_leave_witness :
  exists rooms1,
    Chat.joinRoom "bob" "lobby" Demo.rooms = (Normal tt, rooms1) /\
    Chat.is_member "bob" "lobby" rooms1 = true /\
    Chat.leaveRoom "bob" "lobby" rooms1 = Demo.rooms.
Proof.
  exact (ChatFacts.join_then_leave "bob" "lobby" Demo.rooms demo_rooms_ok eq_refl).
Defined.

(** X15, on the test host: ann is in the lobby, and her connection is
    registered under the id the manager drew, not under "ann". *)
Lemma broadcastToRoom_needs_user_ids_as_connection_ids_witness :
  Chat.broadcastToRoom Demo.rooms "lobby" (mkMessage "x" 1 None) None
    (Mock.manager [Mock.conn 1 "uuid-0"] (Mock.healthy 100))
  = (Normal tt, Mock.manager [Mock.conn 1 "uuid-0"] (Mock.healthy 100)).
Proof.
  apply (ChatFacts.broadcastToRoom_needs_user_ids_as_connection_ids
           (RT := Mock.runtime)).
  intros u Hu. destruct (String.eqb_spec u "ann") as [Heq | Hne].
  - rewrite Heq. reflexivity.
  - apply String.eqb_neq in Hne.
    unfold Chat.is_member, Demo.rooms, JSSet.has in Hu. cbn [JSMap.get String.eqb Ascii.eqb Bool.eqb existsb] in Hu.
    rewrite Hne in Hu. discriminate Hu.
Defined.

(** X17, on the test host: nobody is registered as zoe. *)
Lemma unknown_user_is_not_reached_witness :
  fst (Helper.sendToUser "zoe" "x" 1 (Demo.helper (Mock.healthy 100))) = Normal false /\
  calls (snd (Helper.sendToUser "zoe" "x" 1 (Demo.helper (Mock.healthy 100)))) = [] /\
  Helper.disconnectUser "zoe" (Demo.helper (Mock.healthy 100))
  = (Normal false, Demo.helper (Mock.healthy 100)).
Proof.
  destruct (HelperFacts.unknown_user_is_not_reached (RT := Mock.runtime)
              (Demo.helper (Mock.healthy 100)) "zoe" "x" 1 eq_refl)
    as [Hsend Hdisc].
  rewrite Hsend. split; [reflexivity|]. split; [reflexivity | exact Hdisc].
Defined.

(** X18, on the test host: ann's first connection is "c1". *)
Lemma user_is_reached_on_first_connection_witness :
  Helper.sendToUser "ann" "x" 1 (Demo.helper (Mock.healthy 100))
  = Helper.sendToConnection "c1" "x" 1 (Demo.helper (Mock.healthy 100)) /\
  Helper.disconnectUser "ann" (Demo.helper (Mock.healthy 100))
  = disconnect "c1" (Demo.helper (Mock.healthy 100)).
Proof.
  exact (HelperFacts.user_is_reached_on_first_connection (RT := Mock.runtime)
           (Demo.helper (Mock.healthy 100))
           [Demo.user 2 "c2" "bob" ["lobby"; "dev"]] "c1"
           (snd (Demo.user 4 "c1" "ann" ["lobby"]))
           [Demo.user 3 "c3" "ann" ["dev"]; Demo.anonymous 5 "c4"]
           "ann" "x" 1 eq_refl eq_refl eq_refl).
Defined.

(** X19, on the test host: ann's first connection is on socket 4, which is
    closed; her second, on socket 3, is open. *)
Lemma sendToUser_gives_up_on_closed_first_connection_witness :
  Helper.sendToUser "ann" "x" 1 (Demo.helper (Mock.troubled 100))
  = (Normal false, Demo.helper (Mock.troubled 100)) /\
  readyState 3 (Mock.troubled 100) = 1.
Proof.
  split; [|reflexivity].
  apply (HelperFacts.sendToUser_gives_up_on_closed_first_connection
           (RT := Mock.runtime)
           (Demo.helper (Mock.troubled 100))
           [Demo.user 2 "c2" "bob" ["lobby"; "dev"]] "c1"
           (snd (Demo.user 4 "c1" "ann" ["lobby"]))
           [Demo.user 3 "c3" "ann" ["dev"]; Demo.anonymous 5 "c4"]
           "ann" "x" 1);
    [distinct_keys | reflexivity | reflexivity | reflexivity | simpl; lia].
Defined.

(** X20, on the test host: the clock reads 100. *)
Lemma helper_frames_carry_the_clock_witness :
  exists (b : bool) s' new,
    Helper.sendToConnection "c3" "x" 1 (Demo.helper (Mock.troubled 100))
    = (Normal b, s') /\
    calls s' = new /\
    Forall (fun call => exists w, call = CallSend w (Mock.frame 100)) new.
Proof.
  destruct (HelperFacts.helper_frames_carry_the_clock (RT := Mock.runtime)
              (Demo.helper (Mock.troubled 100)) "c3" "x" 1 ["bob"])
    as [(b & s' & new & Hrun & Hcalls & Hall) _].
  { simpl. lia. }
  exists b, s', new. split; [exact Hrun|]. split; [exact Hcalls|].
  eapply Forall_impl; [|exact Hall].
  intros call (w & payload & Hjson & ->). injection Hjson as <-. now exists w.
Defined.

(** X21, on the test host: bob is excluded, ann's first socket is closed. *)
Lemma helper_broadcast_recipients_witness :
  exists s' payload,
    Helper.broadcast "x" 1 ["bob"] (Demo.helper (Mock.troubled 100)) = (Normal tt, s') /\
    calls s' = [CallSend 3 payload; CallSend 5 payload].
Proof.
  destruct (HelperFacts.helper_broadcast_recipients (RT := Mock.runtime)
              (Demo.helper (Mock.troubled 100)) "x" 1 ["bob"]
              mock_send_keeps_readyState)
    as (t & _ & s' & Hrun & _ & Hcalls).
  { distinct_keys. }
  exists s'. eexists. split; [exact Hrun | exact Hcalls].
Defined.

(** X22, on the test host: bob and ann's second connection are in "dev";
    bob is excluded. *)
Lemma helper_broadcastToRoom_recipients_witness :
  exists s' new,
    Helper.broadcastToRoom "dev" "x" 1 ["bob"] (Demo.helper (Mock.troubled 100))
    = (Normal tt, s') /\
    calls s' = new /\
    map call_socket new = [3%nat].
Proof.
  destruct (HelperFacts.helper_broadcastToRoom_recipients (RT := Mock.runtime)
              (Demo.helper (Mock.troubled 100)) "dev" "x" 1 ["bob"]
              mock_send_keeps_readyState)
    as (s' & new & Hrun & _ & Hcalls & _ & Hmap).
  { distinct_keys. }
  { intros t. eexists. reflexivity. }
  exists s', new. split; [exact Hrun|]. split; [exact Hcalls | exact Hmap].
Defined.

(** X23, on the test host: ann is disconnected once and is still online. *)
Lemma disconnectUser_forgets_first_connection_only_witness :
  exists s',
    Helper.disconnectUser "ann" (Demo.helper (Mock.healthy 100)) = (Normal true, s') /\
    connections s'
    = [Demo.user 2 "c2" "bob" ["lobby"; "dev"];
       Demo.user 3 "c3" "ann" ["dev"]; Demo.anonymous 5 "c4"] /\
    calls s' = [CallClose 4] /\
    Helper.isUserOnline "ann" s' = (Normal true, s').
Proof.
  destruct (HelperFacts.disconnectUser_forgets_first_connection_only
              (RT := Mock.runtime)
              (Demo.helper (Mock.healthy 100))
              [Demo.user 2 "c2" "bob" ["lobby"; "dev"]] "c1"
              (snd (Demo.user 4 "c1" "ann" ["lobby"]))
              [Demo.user 3 "c3" "ann" ["dev"]; Demo.anonymous 5 "c4"]
              "ann" (Mock.closing 4 (Mock.healthy 100)))
    as (s' & Hrun & Hc & Hcalls & Honline);
    [distinct_keys | reflexivity | reflexivity | reflexivity | reflexivity |].
  exists s'. split; [exact Hrun|]. split; [exact Hc|].
  split; [exact Hcalls | exact Honline].
Defined.

(** X26, on the test host: two heartbeats are set up and one of the two
    sockets closes. *)
Lemma no_heartbeat_timer_leaks_witness :
  exists st',
    Plugin.run_events true
      [Plugin.EvConnection 1 tt;
       Plugin.EvHeartbeat (mkConnection 1 "uuid-0" (Some tt));
       Plugin.EvConnection 2 tt;
       Plugin.EvHeartbeat (mkConnection 2 "uuid-1" (Some tt));
       Plugin.EvClose (mkConnection 1 "uuid-0" (Some tt))]
      Demo.plugin = (Normal tt, st') /\
    Plugin.intervals st' = JSMap.values (Plugin.heartbeatTimers st') /\
    JSMap.wf (Plugin.heartbeatTimers st').
Proof.
  destruct (PluginFacts.no_heartbeat_timer_leaks (RT := Mock.runtime) true
              [Plugin.EvConnection 1 tt;
               Plugin.EvHeartbeat (mkConnection 1 "uuid-0" (Some tt));
               Plugin.EvConnection 2 tt;
               Plugin.EvHeartbeat (mkConnection 2 "uuid-1" (Some tt));
               Plugin.EvClose (mkConnection 1 "uuid-0" (Some tt))]
              Demo.plugin eq_refl eq_refl)
    as (st' & Hrun & Hval & Hwf & _).
  { distinct_keys. }
  exists st'. split; [exact Hrun|]. split; [exact Hval | exact Hwf].
Defined.
